(** * PyTrack: the data-access and aggregation layer of [main.py]

    A shallow embedding of SECTION 1 of [src/main.py] (the functions that talk
    to the SQLite file [data/expenses.db]) and of the budget-status computation
    of [ExpenseTrackerApp.update_goal_display], followed by the properties the
    specification states about them.

    The functions are given twice.  The first part takes an amount as the
    number it stands for; it carries the properties that do not depend on
    how the machine computes: which rows a call stores, drops and lists, in
    which order, and what happens to categories, settings and goals.  The
    module [F64] of the second part takes an amount as the binary64 value
    the interpreter and SQLite hold; it carries the properties about sums,
    averages and percentages, about the ids [delete_expense] is given and
    about the states the program can reach.

    Modelling conventions.
    - A Python [str] / SQLite TEXT value is a Rocq [string]: the sequence of
      bytes of its UTF-8 encoding.  SQLite's default BINARY collation compares
      exactly these bytes.
    - The arguments have the types the two front ends pass: texts for date,
      category, note and names, a number for an amount, an integer for an id.
    - In the first part a Python [float] / SQLite REAL amount is a rational
      number [Q], the digits of a date are the ASCII digits and an id is any
      integer; in [F64] an amount is a [float], [strptime] reads the decimal
      digits of every script and an id outside the signed 64-bit range makes
      [delete_expense] raise.
    - The database file is a record of four optional tables ([None]: the table
      has not been created yet).  Every function opens a connection, runs its
      statements and commits, so a function is a map from the stored state to
      a result and a new stored state.  A statement on a missing table raises
      [sqlite3.OperationalError], which no function of the module catches.
    - [ORDER BY] is a merge sort of the rows in rowid order; the theorems only
      use that the result is a sorted permutation, which holds for any order
      SQLite chooses among rows with equal keys.
    - The ids AUTOINCREMENT hands out are integers of any size; the table
      never comes near the 64-bit bound at which SQLite refuses an insert. *)

From Stdlib Require Import Floats.
From Stdlib Require Import ZArith QArith Lqa Ascii String List Lia.
From stdpp Require Import gmap strings list sorting.

Local Open Scope string_scope.
Local Open Scope Z_scope.

(** ** Characters and regular-expression atoms *)

Definition code (c : ascii) : Z := Z.of_N (N_of_ascii c).

(** [\d], restricted to the ASCII digits. *)
Definition is_digit (c : ascii) : bool := (48 <=? code c) && (code c <=? 57).

Definition digit_val (c : ascii) : Z := code c - 48.

(** A matcher consumes a prefix of the text and returns it with the rest. *)
Definition matcher := string → option (string * string).

Definition rng (lo hi : ascii) : matcher := λ s,
  match s with
  | String c rest =>
      if (code lo <=? code c) && (code c <=? code hi)
      then Some (String c EmptyString, rest) else None
  | EmptyString => None
  end.

Definition chr (c : ascii) : matcher := rng c c.

Definition digit : matcher := rng "0" "9".

Definition and_then (p q : matcher) : matcher := λ s,
  match p s with
  | Some (a, rest) =>
      match q rest with
      | Some (b, rest') => Some (a ++ b, rest')
      | None => None
      end
  | None => None
  end.

Definition or_else (p q : matcher) : matcher := λ s,
  match p s with
  | Some r => Some r
  | None => q s
  end.

Infix "&>" := and_then (at level 41, right associativity).
Infix "<|>" := or_else (at level 42, right associativity).

(** ** [datetime.strptime(date_str, '%Y-%m-%d')]

    [_strptime] turns the format into the regular expression
    [(?P<Y>\d\d\d\d)-(?P<m>1[0-2]|0[1-9]|[1-9])-(?P<d>3[0-1]|[1-2]\d|0[1-9]|[1-9]| [1-9])],
    matches it at the start of the text, raises [ValueError] when text is left
    over, converts the groups with [int] and builds a [date], which raises
    [ValueError] for a day that the month does not have and for year 0.
    No alternative of [m] or [d] that is tried later can succeed where an
    earlier one matched and the rest failed, so ordered choice is exact here. *)

Definition re_Y : matcher := digit &> digit &> digit &> digit.

Definition re_m : matcher :=
  (chr "1" &> rng "0" "2") <|> (chr "0" &> rng "1" "9") <|> rng "1" "9".

Definition re_d : matcher :=
  (chr "3" &> rng "0" "1") <|> (rng "1" "2" &> digit) <|>
  (chr "0" &> rng "1" "9") <|> rng "1" "9" <|> (chr " " &> rng "1" "9").

(** [int(text)] on a captured group: decimal digits, a blank is skipped. *)
Fixpoint int_acc (acc : Z) (s : string) : Z :=
  match s with
  | EmptyString => acc
  | String c rest =>
      if is_digit c then int_acc (10 * acc + digit_val c) rest
      else int_acc acc rest
  end.

Definition int (s : string) : Z := int_acc 0 s.

Definition is_leap (year : Z) : bool :=
  (year mod 4 =? 0) && (negb (year mod 100 =? 0) || (year mod 400 =? 0)).

Definition days_in_month (year month : Z) : Z :=
  if (month =? 2) && is_leap year then 29
  else nth (Z.to_nat month) [0; 31; 28; 31; 30; 31; 30; 31; 31; 30; 31; 30; 31] 0.

(** The range checks of [datetime.date(year, month, day)]. *)
Definition check_date_fields (year month day : Z) : bool :=
  (1 <=? year) && (year <=? 9999) && (1 <=? month) && (month <=? 12) &&
  (1 <=? day) && (day <=? days_in_month year month).

(** The groups of the regular expression, when it matches the whole text. *)
Definition match_date (date_str : string) : option (string * string * string) :=
  '(y, r) ← re_Y date_str;
  '(_, r) ← chr "-" r;
  '(m, r) ← re_m r;
  '(_, r) ← chr "-" r;
  '(d, r) ← re_d r;
  match r with
  | EmptyString => Some (y, m, d)
  | String _ _ => None
  end.

(** [Some (year, month, day)], or [None] for [ValueError]. *)
Definition strptime (date_str : string) : option (Z * Z * Z) :=
  match match_date date_str with
  | Some (y, m, d) =>
      if check_date_fields (int y) (int m) (int d)
      then Some (int y, int m, int d) else None
  | None => None
  end.

(** The dates the specification calls valid: a real calendar date written as
    four digits, a dash, two digits, a dash and two digits. *)
Definition iso_date (s : string) : bool :=
  match s with
  | String y1 (String y2 (String y3 (String y4 (String s1 (String m1 (String m2
      (String s2 (String d1 (String d2 EmptyString))))))))) =>
      is_digit y1 && is_digit y2 && is_digit y3 && is_digit y4 &&
      (code s1 =? 45) && is_digit m1 && is_digit m2 &&
      (code s2 =? 45) && is_digit d1 && is_digit d2 &&
      check_date_fields
        (1000 * digit_val y1 + 100 * digit_val y2 + 10 * digit_val y3 + digit_val y4)
        (10 * digit_val m1 + digit_val m2)
        (10 * digit_val d1 + digit_val d2)
  | _ => false
  end.

(** The year-month of a date in that form: its first seven characters. *)
Definition year_month (date_str : string) : string := substring 0 7 date_str.

(** ** SQLite's [strftime('%Y-%m', date)]

    On the texts [add_expense] can store, the date parser of SQLite either
    reads the ten characters [YYYY-MM-DD] ([getDigits] with the format
    [40f-21a-21d]: exactly four, two and two ASCII digits, month 1..12, day
    1..31) or gives NULL, and [strftime] prints the year and the month it
    read.  Texts that SQLite reads as well but that never pass [add_expense]
    are NULL here: a date followed by blanks or by a time of day, a julian
    day number, ['now'].  A day beyond the end of its month, which some
    versions of SQLite carry over into the next month, does not pass
    [add_expense] either; here the month is printed as read. *)

Definition parseYyyyMmDd (zDate : string) : option (Z * Z * Z) :=
  match zDate with
  | String y1 (String y2 (String y3 (String y4 (String s1 (String m1 (String m2
      (String s2 (String d1 (String d2 EmptyString))))))))) =>
      if is_digit y1 && is_digit y2 && is_digit y3 && is_digit y4 &&
         (code s1 =? 45) && is_digit m1 && is_digit m2 &&
         (code s2 =? 45) && is_digit d1 && is_digit d2
      then
        let Y := 1000 * digit_val y1 + 100 * digit_val y2 + 10 * digit_val y3 + digit_val y4 in
        let M := 10 * digit_val m1 + digit_val m2 in
        let D := 10 * digit_val d1 + digit_val d2 in
        if (1 <=? M) && (M <=? 12) && (1 <=? D) && (D <=? 31)
        then Some (Y, M, D) else None
      else None
  | _ => None
  end.

Definition digit_char (d : Z) : ascii := ascii_of_N (Z.to_N (48 + d)).

(** [%04d] and [%02d] on the values that occur. *)
Definition fmt04 (n : Z) : string :=
  String (digit_char (n / 1000 mod 10)) (String (digit_char (n / 100 mod 10))
    (String (digit_char (n / 10 mod 10)) (String (digit_char (n mod 10)) EmptyString))).

Definition fmt02 (n : Z) : string :=
  String (digit_char (n / 10 mod 10)) (String (digit_char (n mod 10)) EmptyString).

(** [None] is SQL NULL. *)
Definition strftime_Ym (date : string) : option string :=
  '(Y, M, D) ← parseYyyyMmDd date;
  Some (fmt04 Y ++ "-" ++ fmt02 M).

(** ** [str.strip()]

    The characters Python treats as whitespace, in their UTF-8 encoding:
    U+0009..000D, U+001C..0020, U+0085, U+00A0, U+1680, U+2000..200A, U+2028,
    U+2029, U+202F, U+205F and U+3000. *)

Definition is_space1 (c1 : ascii) : bool :=
  ((9 <=? code c1) && (code c1 <=? 13)) || ((28 <=? code c1) && (code c1 <=? 32)).

Definition is_space2 (c1 c2 : ascii) : bool :=
  (code c1 =? 194) && ((code c2 =? 133) || (code c2 =? 160)).

Definition is_space3 (c1 c2 c3 : ascii) : bool :=
  ((code c1 =? 225) && (code c2 =? 154) && (code c3 =? 128)) ||
  ((code c1 =? 226) && (code c2 =? 128) &&
     (((128 <=? code c3) && (code c3 <=? 138)) ||
      (code c3 =? 168) || (code c3 =? 169) || (code c3 =? 175))) ||
  ((code c1 =? 226) && (code c2 =? 129) && (code c3 =? 159)) ||
  ((code c1 =? 227) && (code c2 =? 128) && (code c3 =? 128)).

Fixpoint lstrip (s : string) : string :=
  match s with
  | EmptyString => s
  | String c1 r1 =>
      if is_space1 c1 then lstrip r1
      else match r1 with
           | EmptyString => s
           | String c2 r2 =>
               if is_space2 c1 c2 then lstrip r2
               else match r2 with
                    | EmptyString => s
                    | String c3 r3 =>
                        if is_space3 c1 c2 c3 then lstrip r3 else s
                    end
           end
  end.

Definition is_empty (s : string) : bool :=
  match s with EmptyString => true | String _ _ => false end.

Fixpoint rstrip (s : string) : string :=
  match s with
  | EmptyString => s
  | String c rest => if is_empty (lstrip s) then EmptyString else String c (rstrip rest)
  end.

Definition strip (s : string) : string := rstrip (lstrip s).

(** ** The stored state *)

(** A row of [expenses(id, date, amount, category, note)]. *)
Record expense := Expense {
  exp_id : Z;
  exp_date : string;
  exp_amount : Q;
  exp_category : string;
  exp_note : string
}.

(** The table [expenses]: its rows in rowid order, and the entry of
    [sqlite_sequence] that AUTOINCREMENT keeps for it (0 before the first
    insert). *)
Record expenses_table := ExpensesTable {
  rows : list expense;
  seq : Z
}.

Record store := Store {
  expenses : option expenses_table;
  categories : option (gset string);
  goals : option (gmap string Q);
  settings : option (gmap string string)
}.

(** The database file right after [sqlite3.connect] created it. *)
Definition empty_db : store := Store None None None None.

Definition set_expenses (t : expenses_table) (db : store) : store :=
  Store (Some t) (categories db) (goals db) (settings db).

Definition set_categories (c : gset string) (db : store) : store :=
  Store (expenses db) (Some c) (goals db) (settings db).

Definition set_goals (g : gmap string Q) (db : store) : store :=
  Store (expenses db) (categories db) (Some g) (settings db).

Definition set_settings (st : gmap string string) (db : store) : store :=
  Store (expenses db) (categories db) (goals db) (Some st).

(** What a call does: it returns a value or an exception leaves it. *)
Inductive exn := OperationalError | IntegrityError.

Inductive outcome (A : Type) :=
  | Returns (a : A)
  | Raises (e : exn).
Arguments Returns {A} a.
Arguments Raises {A} e.

(** ** SQL building blocks *)

Definition max_rowid (l : list expense) : Z :=
  foldr (λ e m, Z.max (exp_id e) m) 0 l.

(** The id AUTOINCREMENT gives the next row: one more than the largest id
    the table has ever held. *)
Definition next_id (t : expenses_table) : Z :=
  Z.max (seq t) (max_rowid (rows t)) + 1.

(** [INSERT INTO expenses (date, amount, category, note) VALUES (?, ?, ?, ?)] *)
Definition insert_expense (date_str : string) (amount : Q) (category note : string)
    (t : expenses_table) : expenses_table :=
  let i := next_id t in
  ExpensesTable (rows t ++ [Expense i date_str amount category note]) i.

(** [DELETE FROM expenses WHERE id = ?] *)
Definition delete_rows (expense_id : Z) (t : expenses_table) : expenses_table :=
  ExpensesTable (filter (λ e, exp_id e ≠ expense_id) (rows t)) (seq t).

(** [cursor.rowcount] of that statement. *)
Definition rowcount (expense_id : Z) (t : expenses_table) : nat :=
  length (filter (λ e, exp_id e = expense_id) (rows t)).

(** The BINARY collation on TEXT. *)
Definition text_le (a b : string) : Prop := String.leb a b = true.

#[global] Instance text_le_dec a b : Decision (text_le a b).
Proof. unfold text_le. apply _. Defined.

(** SUM gives NULL on no rows. *)
Definition sum_Q (l : list Q) : Q := foldr Qplus 0%Q l.

Definition sql_sum (l : list Q) : option Q :=
  match l with
  | [] => None
  | _ => Some (sum_Q l)
  end.

(** ** The functions of SECTION 1 *)

Definition default_categories : list string :=
  ["Food"; "Travel"; "Shopping"; "Bills"; "Misc"].

(** [initialize_db()]: four [CREATE TABLE IF NOT EXISTS], the
    [INSERT OR IGNORE] of the currency symbol and, when [COUNT] finds no
    category, the [executemany] of the defaults. *)
Definition initialize_db (db : store) : store :=
  let e := default (ExpensesTable [] 0) (expenses db) in
  let c := default ∅ (categories db) in
  let g := default ∅ (goals db) in
  let st := default ∅ (settings db) in
  let st := match st !! "currency_symbol" with
            | Some _ => st
            | None => <["currency_symbol" := "$"]> st
            end in
  let c := if decide (size c = 0%nat)
           then foldl (λ acc cat, {[cat]} ∪ acc) c default_categories
           else c in
  Store (Some e) (Some c) (Some g) (Some st).

Definition get_setting (key : string) (db : store) : outcome (option string) :=
  match settings db with
  | None => Raises OperationalError
  | Some st => Returns (st !! key)
  end.

Definition update_setting (key value : string) (db : store) : outcome unit * store :=
  match settings db with
  | None => (Raises OperationalError, db)
  | Some st => (Returns (), set_settings (<[key := value]> st) db)
  end.

(** [add_expense]: the [try] block first; [False] for a [ValueError]. *)
Definition add_expense (date_str : string) (amount : Q) (category note : string)
    (db : store) : outcome bool * store :=
  match strptime date_str with
  | None => (Returns false, db)
  | Some _ =>
      if Qle_bool amount 0 then (Returns false, db)
      else match expenses db with
           | None => (Raises OperationalError, db)
           | Some t =>
               (Returns true,
                set_expenses (insert_expense date_str amount category note t) db)
           end
  end.

(** [... ORDER BY date DESC] *)
Definition date_desc (a b : expense) : Prop := text_le (exp_date b) (exp_date a).

#[global] Instance date_desc_dec a b : Decision (date_desc a b).
Proof. unfold date_desc. apply _. Defined.

Definition get_all_expenses (db : store) : outcome (list expense) :=
  match expenses db with
  | None => Raises OperationalError
  | Some t => Returns (merge_sort date_desc (rows t))
  end.

Definition delete_expense (expense_id : Z) (db : store) : outcome bool * store :=
  match expenses db with
  | None => (Raises OperationalError, db)
  | Some t =>
      (Returns (bool_decide (0 < rowcount expense_id t)%nat),
       set_expenses (delete_rows expense_id t) db)
  end.

(** [SELECT name FROM categories ORDER BY name] *)
Definition get_categories (db : store) : outcome (list string) :=
  match categories db with
  | None => Raises OperationalError
  | Some c => Returns (merge_sort text_le (elements c))
  end.

(** [add_category]: the primary key of [categories] makes the INSERT of a
    stored name raise [IntegrityError], which the function catches. *)
Definition add_category (category_name : string) (db : store)
    : outcome (bool * string) * store :=
  if is_empty (strip category_name)
  then (Returns (false, "Category name cannot be empty."), db)
  else match categories db with
       | None => (Raises OperationalError, db)
       | Some c =>
           if decide (category_name ∈ c)
           then (Returns (false, "Error: Category '" ++ category_name ++ "' already exists."), db)
           else (Returns (true, "Category '" ++ category_name ++ "' added successfully."),
                 set_categories ({[category_name]} ∪ c) db)
       end.

Definition set_monthly_goal (month_str : string) (goal_amount : Q) (db : store)
    : outcome unit * store :=
  match goals db with
  | None => (Raises OperationalError, db)
  | Some g => (Returns (), set_goals (<[month_str := goal_amount]> g) db)
  end.

Definition get_monthly_goal (month_str : string) (db : store) : outcome Q :=
  match goals db with
  | None => Raises OperationalError
  | Some g => Returns (default 0%Q (g !! month_str))
  end.

(** [SELECT SUM(amount) FROM expenses WHERE strftime('%Y-%m', date) = ?] *)
Definition in_month (month_str : string) (e : expense) : Prop :=
  strftime_Ym (exp_date e) = Some month_str.

#[global] Instance in_month_dec m e : Decision (in_month m e).
Proof. unfold in_month. apply _. Defined.

Definition get_total_expenses_for_month (month_str : string) (db : store) : outcome Q :=
  match expenses db with
  | None => Raises OperationalError
  | Some t =>
      Returns (default 0%Q
                 (sql_sum (exp_amount <$> filter (in_month month_str) (rows t))))
  end.

(** [SELECT date, amount, category, note FROM expenses
     WHERE date BETWEEN ? AND ? ORDER BY date] *)
Definition between (start_date end_date : string) (e : expense) : Prop :=
  text_le start_date (exp_date e) ∧ text_le (exp_date e) end_date.

#[global] Instance between_dec a b e : Decision (between a b e).
Proof. unfold between. apply _. Defined.

Definition date_asc (a b : expense) : Prop := text_le (exp_date a) (exp_date b).

#[global] Instance date_asc_dec a b : Decision (date_asc a b).
Proof. unfold date_asc. apply _. Defined.

Definition range_columns (e : expense) : string * Q * string * string :=
  (exp_date e, exp_amount e, exp_category e, exp_note e).

Definition get_expenses_in_date_range (start_date end_date : string) (db : store)
    : outcome (list (string * Q * string * string)) :=
  match expenses db with
  | None => Raises OperationalError
  | Some t =>
      Returns (range_columns <$>
                 merge_sort date_asc (filter (between start_date end_date) (rows t)))
  end.

(** ** The budget status of [ExpenseTrackerApp.update_goal_display]

    The value of the progress bar, the text and colour of the status label
    and the style given to the bar (none in the [else] branch). *)
Record goal_display := GoalDisplay {
  progress_value : Q;
  status_text : string;
  status_foreground : string;
  progress_style : option string
}.

Definition Qgt_bool (a b : Q) : bool := negb (Qle_bool a b).

Definition update_goal_display (goal spent : Q) : goal_display :=
  if Qgt_bool goal 0 then
    let percentage := ((spent / goal) * 100)%Q in
    if Qgt_bool percentage 100 then
      GoalDisplay percentage "Status: Over Budget!" "red"
        (Some "Red.Horizontal.TProgressbar")
    else if Qgt_bool percentage 85 then
      GoalDisplay percentage "Status: Nearing Budget" "orange"
        (Some "Orange.Horizontal.TProgressbar")
    else
      GoalDisplay percentage "Status: On Track" "green"
        (Some "Green.Horizontal.TProgressbar")
  else
    GoalDisplay 0 "Set a goal to see your status." "black" None.

(** ** Sequences of calls

    The functions that write to the store; the others leave it as it is. *)
Inductive call :=
  | InitializeDb
  | UpdateSetting (key value : string)
  | AddExpense (date_str : string) (amount : Q) (category note : string)
  | DeleteExpense (expense_id : Z)
  | AddCategory (category_name : string)
  | SetMonthlyGoal (month_str : string) (goal_amount : Q).

Definition run (c : call) (db : store) : store :=
  match c with
  | InitializeDb => initialize_db db
  | UpdateSetting key value => (update_setting key value db).2
  | AddExpense date_str amount category note =>
      (add_expense date_str amount category note db).2
  | DeleteExpense expense_id => (delete_expense expense_id db).2
  | AddCategory category_name => (add_category category_name db).2
  | SetMonthlyGoal month_str goal_amount => (set_monthly_goal month_str goal_amount db).2
  end.

Definition run_all (cs : list call) (db : store) : store :=
  foldl (λ db c, run c db) db cs.

(** The stored states the program can be in: [main] calls [initialize_db]
    on start, on a database file that is new, and the front ends call the
    functions above. *)
Inductive reachable : store → Prop :=
  | reachable_init : reachable (initialize_db empty_db)
  | reachable_run (c : call) (db : store) : reachable db → reachable (run c db).

(** ** Initialised stores

    The four tables exist, there is a category, and the currency symbol has
    a value. *)
Definition initialized (db : store) : Prop :=
  ∃ t c g st,
    db = Store (Some t) (Some c) (Some g) (Some st) ∧
    c ≠ ∅ ∧ is_Some (st !! "currency_symbol").

(** ** Stores to run the functions on *)

(** Three expenses in two months. *)
Definition demo_db : store :=
  (add_expense "2024-02-01" 6 "Travel" "bus" (add_expense "2024-01-31" 4 "Food" "tea"
     (add_expense "2024-01-05" 10 "Food" "lunch" (initialize_db empty_db)).2).2).2.

Definition demo_table : expenses_table :=
  ExpensesTable
    [Expense 1 "2024-01-05" 10 "Food" "lunch";
     Expense 2 "2024-01-31" 4 "Food" "tea";
     Expense 3 "2024-02-01" 6 "Travel" "bus"] 3.

(** The categories of a freshly initialised store. *)
Definition default_category_set : gset string := list_to_set default_categories.

(** A store in use: another currency symbol and one more category. *)
Definition used_db : store :=
  run (AddCategory "Pets")
    (run (UpdateSetting "currency_symbol" "EUR") (initialize_db empty_db)).

(** ** The other queries of SECTION 1 *)

(** [SELECT key, SUM(amount) FROM expenses GROUP BY key]: one running total
    per distinct key. *)
Definition group_sum_by (key : expense → string) (l : list expense) : gmap string Q :=
  foldl (λ acc e, <[key e := (default 0%Q (acc !! key e) + exp_amount e)%Q]> acc) ∅ l.

(** [... ORDER BY SUM(amount) DESC] *)
Definition total_desc (a b : string * Q) : Prop := Qle_bool b.2 a.2 = true.

#[global] Instance total_desc_dec a b : Decision (total_desc a b).
Proof. unfold total_desc. apply _. Defined.

(** [SELECT category, SUM(amount) FROM expenses GROUP BY category
     ORDER BY SUM(amount) DESC] *)
Definition get_category_breakdown (db : store) : outcome (list (string * Q)) :=
  match expenses db with
  | None => Raises OperationalError
  | Some t =>
      Returns (merge_sort total_desc (map_to_list (group_sum_by exp_category (rows t))))
  end.

(** [... ORDER BY amount DESC LIMIT 1] *)
Definition amount_desc (a b : expense) : Prop :=
  Qle_bool (exp_amount b) (exp_amount a) = true.

#[global] Instance amount_desc_dec a b : Decision (amount_desc a b).
Proof. unfold amount_desc. apply _. Defined.

(** [get_highest_expense_current_month()]; [current_month] is the text
    [datetime.now().strftime('%Y-%m')] gives at the time of the call, and
    [None] is what [fetchone] returns when no row is left. *)
Definition get_highest_expense_current_month (current_month : string) (db : store)
    : outcome (option (string * Q * string * string)) :=
  match expenses db with
  | None => Raises OperationalError
  | Some t =>
      Returns (range_columns <$>
                 head (merge_sort amount_desc (filter (in_month current_month) (rows t))))
  end.

(** Python's [sum]: from 0, left to right. *)
Definition py_sum (l : list Q) : Q := foldl Qplus 0%Q l.

(** Choice 1 of [view_reports_cli]: the total it prints for a date range,
    [sum(exp[1] for exp in expenses)]. *)
Definition view_reports_range_total (start_date end_date : string) (db : store)
    : outcome Q :=
  match get_expenses_in_date_range start_date end_date db with
  | Returns expenses => Returns (py_sum ((λ exp, exp.1.1.2) <$> expenses))
  | Raises e => Raises e
  end.

(** [update_goal_display] with what it reads first: the goal and the total
    of the month [datetime.now().strftime('%Y-%m')] names at the time of the
    call. *)
Definition update_goal_display_for (month_str : string) (db : store)
    : outcome goal_display :=
  match get_monthly_goal month_str db with
  | Raises e => Raises e
  | Returns goal =>
      match get_total_expenses_for_month month_str db with
      | Raises e => Raises e
      | Returns spent => Returns (update_goal_display goal spent)
      end
  end.

(** * The functions on the values the machine holds

    The definitions above take an amount as the number it stands for, the
    digits of a date as the ASCII digits and an id as any integer.  The
    module [F64] gives the functions of SECTION 1 once more, with what the
    interpreter and SQLite have in their place:
    - an amount or a goal is a binary64 value, a [float]: [+], [/], [<] and
      [<=] are the operations of IEEE 754 with rounding to nearest even;
    - [SUM] is the sum SQLite 3.40 computes, which starts from 0.0 and adds
      the values one by one in the order of the scan (the rowid order), and
      [AVG] is such a sum divided by the count; a result that is not a
      number is NULL;
    - a REAL NOT NULL column refuses NaN, which the [sqlite3] module binds
      as NULL, with [sqlite3.IntegrityError];
    - the [sqlite3] module binds a Python [int] as a signed 64-bit integer
      and raises [OverflowError] for one outside that range;
    - [\d] and [int] of [strptime] read the decimal digits of every script
      (Unicode 14, the version of Python 3.11). *)

Module F64.

(** ** Decimal digits *)

Definition continuation (c : ascii) : bool := (128 <=? code c) && (code c <=? 191).

(** The first character of a text in UTF-8: its code point, its bytes and
    the text after it. *)
Definition first_char (s : string) : option (Z * string * string) :=
  match s with
  | EmptyString => None
  | String c1 r1 =>
      if code c1 <? 128 then Some (code c1, String c1 EmptyString, r1)
      else
        match r1 with
        | EmptyString => None
        | String c2 r2 =>
            if (194 <=? code c1) && (code c1 <=? 223) then
              if continuation c2
              then Some ((code c1 - 192) * 64 + (code c2 - 128),
                         String c1 (String c2 EmptyString), r2)
              else None
            else
              match r2 with
              | EmptyString => None
              | String c3 r3 =>
                  if (224 <=? code c1) && (code c1 <=? 239) then
                    if continuation c2 && continuation c3
                    then Some (((code c1 - 224) * 64 + (code c2 - 128)) * 64 + (code c3 - 128),
                               String c1 (String c2 (String c3 EmptyString)), r3)
                    else None
                  else
                    match r3 with
                    | EmptyString => None
                    | String c4 r4 =>
                        if (240 <=? code c1) && (code c1 <=? 244) &&
                           continuation c2 && continuation c3 && continuation c4
                        then Some ((((code c1 - 240) * 64 + (code c2 - 128)) * 64
                                      + (code c3 - 128)) * 64 + (code c4 - 128),
                                   String c1 (String c2 (String c3 (String c4 EmptyString))),
                                   r4)
                        else None
                    end
              end
        end
  end.

(** The code points of the digits zero: the characters of general category
    Nd are the ten that start at each of them. *)
Definition zero_digits : list Z :=
  [48; 1632; 1776; 1984; 2406; 2534; 2662; 2790; 2918; 3046; 3174; 3302; 3430;
   3558; 3664; 3792; 3872; 4160; 4240; 6112; 6160; 6470; 6608; 6784; 6800; 6992;
   7088; 7232; 7248; 42528; 43216; 43264; 43472; 43504; 43600; 44016; 65296;
   66720; 68912; 69734; 69872; 69942; 70096; 70384; 70736; 70864; 71248; 71360;
   71472; 71904; 72016; 72784; 73040; 73120; 92768; 92864; 93008; 120782; 120792;
   120802; 120812; 120822; 123200; 123632; 125264; 130032].

(** The value of a decimal digit, [None] for another character. *)
Definition decimal_value (cp : Z) : option Z :=
  head (omap (λ zero, if (zero <=? cp) && (cp <=? zero + 9) then Some (cp - zero) else None)
             zero_digits).

(** [\d] *)
Definition digit : matcher := λ s,
  match first_char s with
  | Some (cp, c, rest) =>
      match decimal_value cp with
      | Some _ => Some (c, rest)
      | None => None
      end
  | None => None
  end.

(** ** [datetime.strptime(date_str, '%Y-%m-%d')] *)

Definition re_Y : matcher := digit &> digit &> digit &> digit.

Definition re_d : matcher :=
  (chr "3" &> rng "0" "1") <|> (rng "1" "2" &> digit) <|>
  (chr "0" &> rng "1" "9") <|> rng "1" "9" <|> (chr " " &> rng "1" "9").

(** [int(text)] on a captured group: the digits give the number, a blank is
    skipped. *)
Fixpoint int_acc (n : nat) (acc : Z) (s : string) : Z :=
  match n with
  | O => acc
  | S n =>
      match first_char s with
      | Some (cp, _, rest) =>
          int_acc n (match decimal_value cp with
                     | Some v => 10 * acc + v
                     | None => acc
                     end) rest
      | None => acc
      end
  end.

Definition int (s : string) : Z := int_acc (String.length s) 0 s.

Definition match_date (date_str : string) : option (string * string * string) :=
  '(y, r) ← re_Y date_str;
  '(_, r) ← chr "-" r;
  '(m, r) ← re_m r;
  '(_, r) ← chr "-" r;
  '(d, r) ← re_d r;
  match r with
  | EmptyString => Some (y, m, d)
  | String _ _ => None
  end.

(** [Some (year, month, day)], or [None] for [ValueError]. *)
Definition strptime (date_str : string) : option (Z * Z * Z) :=
  match match_date date_str with
  | Some (y, m, d) =>
      if check_date_fields (int y) (int m) (int d)
      then Some (int y, int m, int d) else None
  | None => None
  end.

(** ** binary64 values *)

(** [(double)n] for a count [n]. *)
Definition count_to_double (n : nat) : float :=
  PrimFloat.of_uint63 (Uint63.of_Z (Z.of_nat n)).

(** What SQLite hands back for a computed REAL: NULL when it is not a
    number. *)
Definition sql_real (x : float) : option float :=
  if PrimFloat.is_nan x then None else Some x.

(** What a REAL NOT NULL column keeps of a bound value: nothing for NaN, and
    0.0 for either zero. *)
Definition stored_real (x : float) : option float :=
  if PrimFloat.is_nan x then None
  else Some (if PrimFloat.eqb x 0 then 0%float else x).

(** The rational number a binary64 value stands for; [None] for the
    infinities and NaN. *)
Definition exact (x : float) : option Q :=
  match Prim2SF x with
  | S754_zero _ => Some 0%Q
  | S754_finite s m e =>
      let v := match e with
               | Z.neg p => Z.pos m # Pos.pow 2 p
               | _ => inject_Z (Z.pos m * 2 ^ e)
               end in
      Some (if s then - v else v)%Q
  | S754_infinity _ | S754_nan => None
  end.

(** The signed 64-bit integers. *)
Definition int64 (n : Z) : bool := (- 2 ^ 63 <=? n) && (n <=? 2 ^ 63 - 1).

(** ** The stored state *)

Record expense := Expense {
  exp_id : Z;
  exp_date : string;
  exp_amount : float;
  exp_category : string;
  exp_note : string
}.

Record expenses_table := ExpensesTable {
  rows : list expense;
  seq : Z
}.

Record store := Store {
  expenses : option expenses_table;
  categories : option (gset string);
  goals : option (gmap string float);
  settings : option (gmap string string)
}.

Definition empty_db : store := Store None None None None.

Definition set_expenses (t : expenses_table) (db : store) : store :=
  Store (Some t) (categories db) (goals db) (settings db).

Definition set_categories (c : gset string) (db : store) : store :=
  Store (expenses db) (Some c) (goals db) (settings db).

Definition set_goals (g : gmap string float) (db : store) : store :=
  Store (expenses db) (categories db) (Some g) (settings db).

Definition set_settings (st : gmap string string) (db : store) : store :=
  Store (expenses db) (categories db) (goals db) (Some st).

Inductive exn := OperationalError | IntegrityError | OverflowError.

Inductive outcome (A : Type) :=
  | Returns (a : A)
  | Raises (e : exn).
Arguments Returns {A} a.
Arguments Raises {A} e.

(** ** SQL building blocks *)

Definition max_rowid (l : list expense) : Z :=
  foldr (λ e m, Z.max (exp_id e) m) 0 l.

Definition next_id (t : expenses_table) : Z :=
  Z.max (seq t) (max_rowid (rows t)) + 1.

Definition insert_expense (date_str : string) (amount : float) (category note : string)
    (t : expenses_table) : expenses_table :=
  let i := next_id t in
  ExpensesTable (rows t ++ [Expense i date_str amount category note]) i.

Definition delete_rows (expense_id : Z) (t : expenses_table) : expenses_table :=
  ExpensesTable (filter (λ e, exp_id e ≠ expense_id) (rows t)) (seq t).

Definition rowcount (expense_id : Z) (t : expenses_table) : nat :=
  length (filter (λ e, exp_id e = expense_id) (rows t)).

(** The sum of values in the order given, from 0.0. *)
Definition fsum (l : list float) : float := foldl PrimFloat.add 0%float l.

(** [SUM] and [AVG]: NULL on no rows. *)
Definition sql_sum (l : list float) : option float :=
  match l with
  | [] => None
  | _ => sql_real (fsum l)
  end.

Definition sql_avg (l : list float) : option float :=
  match l with
  | [] => None
  | _ => sql_real (fsum l / count_to_double (length l))
  end.

(** ** The functions of SECTION 1 *)

Definition initialize_db (db : store) : store :=
  let e := default (ExpensesTable [] 0) (expenses db) in
  let c := default ∅ (categories db) in
  let g := default ∅ (goals db) in
  let st := default ∅ (settings db) in
  let st := match st !! "currency_symbol" with
            | Some _ => st
            | None => <["currency_symbol" := "$"]> st
            end in
  let c := if decide (size c = 0%nat)
           then foldl (λ acc cat, {[cat]} ∪ acc) c default_categories
           else c in
  Store (Some e) (Some c) (Some g) (Some st).

Definition get_setting (key : string) (db : store) : outcome (option string) :=
  match settings db with
  | None => Raises OperationalError
  | Some st => Returns (st !! key)
  end.

Definition update_setting (key value : string) (db : store) : outcome unit * store :=
  match settings db with
  | None => (Raises OperationalError, db)
  | Some st => (Returns (), set_settings (<[key := value]> st) db)
  end.

(** [add_expense]: [False] for a [ValueError] of the [try] block; then the
    INSERT, which the column [amount REAL NOT NULL] refuses for NaN, a value
    that is not [<= 0]. *)
Definition add_expense (date_str : string) (amount : float) (category note : string)
    (db : store) : outcome bool * store :=
  match strptime date_str with
  | None => (Returns false, db)
  | Some _ =>
      if PrimFloat.leb amount 0 then (Returns false, db)
      else match expenses db with
           | None => (Raises OperationalError, db)
           | Some t =>
               if PrimFloat.is_nan amount then (Raises IntegrityError, db)
               else (Returns true,
                     set_expenses (insert_expense date_str amount category note t) db)
           end
  end.

Definition date_desc (a b : expense) : Prop := text_le (exp_date b) (exp_date a).

#[global] Instance date_desc_decision a b : Decision (date_desc a b).
Proof. unfold date_desc. apply _. Defined.

Definition get_all_expenses (db : store) : outcome (list expense) :=
  match expenses db with
  | None => Raises OperationalError
  | Some t => Returns (merge_sort date_desc (rows t))
  end.

(** [delete_expense]: the statement is prepared, then the id is bound. *)
Definition delete_expense (expense_id : Z) (db : store) : outcome bool * store :=
  match expenses db with
  | None => (Raises OperationalError, db)
  | Some t =>
      if int64 expense_id then
        (Returns (bool_decide (0 < rowcount expense_id t)%nat),
         set_expenses (delete_rows expense_id t) db)
      else (Raises OverflowError, db)
  end.

Definition get_categories (db : store) : outcome (list string) :=
  match categories db with
  | None => Raises OperationalError
  | Some c => Returns (merge_sort text_le (elements c))
  end.

Definition add_category (category_name : string) (db : store)
    : outcome (bool * string) * store :=
  if is_empty (strip category_name)
  then (Returns (false, "Category name cannot be empty."), db)
  else match categories db with
       | None => (Raises OperationalError, db)
       | Some c =>
           if decide (category_name ∈ c)
           then (Returns (false, "Error: Category '" ++ category_name ++ "' already exists."), db)
           else (Returns (true, "Category '" ++ category_name ++ "' added successfully."),
                 set_categories ({[category_name]} ∪ c) db)
       end.

(** [set_monthly_goal]: the column is [goal REAL NOT NULL]. *)
Definition set_monthly_goal (month_str : string) (goal_amount : float) (db : store)
    : outcome unit * store :=
  match goals db with
  | None => (Raises OperationalError, db)
  | Some g =>
      match stored_real goal_amount with
      | None => (Raises IntegrityError, db)
      | Some goal => (Returns (), set_goals (<[month_str := goal]> g) db)
      end
  end.

Definition get_monthly_goal (month_str : string) (db : store) : outcome float :=
  match goals db with
  | None => Raises OperationalError
  | Some g => Returns (default 0%float (g !! month_str))
  end.

Definition in_month (month_str : string) (e : expense) : Prop :=
  strftime_Ym (exp_date e) = Some month_str.

#[global] Instance in_month_decision m e : Decision (in_month m e).
Proof. unfold in_month. apply _. Defined.

(** [SELECT SUM(amount) FROM expenses WHERE strftime('%Y-%m', date) = ?] *)
Definition month_amounts (month_str : string) (t : expenses_table) : list float :=
  exp_amount <$> filter (in_month month_str) (rows t).

(** [result[0] if result[0] is not None else 0.0] *)
Definition get_total_expenses_for_month (month_str : string) (db : store)
    : outcome float :=
  match expenses db with
  | None => Raises OperationalError
  | Some t => Returns (default 0%float (sql_sum (month_amounts month_str t)))
  end.

(** [GROUP BY date]: one group for each distinct text, the groups in
    ascending order, the rows of a group in rowid order. *)
Definition group_keys (l : list expense) : list string :=
  merge_sort text_le (remove_dups (exp_date <$> l)).

Definition group_amounts (date : string) (l : list expense) : list float :=
  exp_amount <$> filter (λ e, exp_date e = date) l.

(** [SELECT SUM(amount) as daily_total FROM expenses GROUP BY date]; [AVG]
    leaves the NULLs out. *)
Definition daily_totals (l : list expense) : list float :=
  omap (λ date, sql_sum (group_amounts date l)) (group_keys l).

(** [average if average else 0.0] *)
Definition get_average_daily_expense (db : store) : outcome float :=
  match expenses db with
  | None => Raises OperationalError
  | Some t =>
      Returns match sql_avg (daily_totals (rows t)) with
              | Some average => if PrimFloat.eqb average 0 then 0%float else average
              | None => 0%float
              end
  end.

(** ** The budget status of [ExpenseTrackerApp.update_goal_display] *)

Record goal_display := GoalDisplay {
  progress_value : float;
  status_text : string;
  status_foreground : string;
  progress_style : option string
}.

Definition update_goal_display (goal spent : float) : goal_display :=
  if PrimFloat.ltb 0 goal then
    let percentage := (spent / goal * 100)%float in
    if PrimFloat.ltb 100 percentage then
      GoalDisplay percentage "Status: Over Budget!" "red"
        (Some "Red.Horizontal.TProgressbar")
    else if PrimFloat.ltb 85 percentage then
      GoalDisplay percentage "Status: Nearing Budget" "orange"
        (Some "Orange.Horizontal.TProgressbar")
    else
      GoalDisplay percentage "Status: On Track" "green"
        (Some "Green.Horizontal.TProgressbar")
  else
    GoalDisplay 0 "Set a goal to see your status." "black" None.

(** ** Sequences of calls *)

Inductive call :=
  | InitializeDb
  | UpdateSetting (key value : string)
  | AddExpense (date_str : string) (amount : float) (category note : string)
  | DeleteExpense (expense_id : Z)
  | AddCategory (category_name : string)
  | SetMonthlyGoal (month_str : string) (goal_amount : float).

(** The stored state after a call, whether it returns or raises. *)
Definition run (c : call) (db : store) : store :=
  match c with
  | InitializeDb => initialize_db db
  | UpdateSetting key value => (update_setting key value db).2
  | AddExpense date_str amount category note =>
      (add_expense date_str amount category note db).2
  | DeleteExpense expense_id => (delete_expense expense_id db).2
  | AddCategory category_name => (add_category category_name db).2
  | SetMonthlyGoal month_str goal_amount => (set_monthly_goal month_str goal_amount db).2
  end.

Definition run_all (cs : list call) (db : store) : store :=
  foldl (λ db c, run c db) db cs.

Inductive reachable : store → Prop :=
  | reachable_init : reachable (initialize_db empty_db)
  | reachable_run (c : call) (db : store) : reachable db → reachable (run c db).

(** ** Stored expenses *)

(** An amount above zero, as [add_expense] has it: not [<= 0] and a
    number. *)
Definition positive (amount : float) : Prop := PrimFloat.ltb 0 amount = true.

(** The ids are distinct and none is above the entry of [sqlite_sequence];
    every amount is above zero. *)
Definition wf_table (t : expenses_table) : Prop :=
  max_rowid (rows t) ≤ seq t ∧ NoDup (exp_id <$> rows t).

Definition valid_table (t : expenses_table) : Prop :=
  wf_table t ∧ Forall (λ e, positive (exp_amount e)) (rows t).

(** Every date is in the form YYYY-MM-DD. *)
Definition padded (l : list expense) : Prop :=
  Forall (λ e, iso_date (exp_date e) = true) l.

(** ** The average in the words of the specification

    The day of an expense is the calendar date its text stands for.  The
    sum of a day adds the amounts of that day in the order they were
    stored, and the mean adds the sums it is given and divides by their
    number; all in binary64. *)

Definition day := (Z * Z * Z)%type.

(** The year, month and day of a text in the form YYYY-MM-DD. *)
Definition iso_day (s : string) : option day :=
  match s with
  | String y1 (String y2 (String y3 (String y4 (String s1 (String m1 (String m2
      (String s2 (String d1 (String d2 EmptyString))))))))) =>
      let Y := 1000 * digit_val y1 + 100 * digit_val y2 + 10 * digit_val y3 + digit_val y4 in
      let M := 10 * digit_val m1 + digit_val m2 in
      let D := 10 * digit_val d1 + digit_val d2 in
      if is_digit y1 && is_digit y2 && is_digit y3 && is_digit y4 &&
         (code s1 =? 45) && is_digit m1 && is_digit m2 &&
         (code s2 =? 45) && is_digit d1 && is_digit d2 &&
         check_date_fields Y M D
      then Some (Y, M, D) else None
  | _ => None
  end.

Definition day_of (e : expense) : option day := iso_day (exp_date e).

(** Earlier in the calendar. *)
Definition day_lt (a b : day) : Prop :=
  a.1.1 < b.1.1 ∨ (a.1.1 = b.1.1 ∧ (a.1.2 < b.1.2 ∨ (a.1.2 = b.1.2 ∧ a.2 < b.2))).

Definition day_sum (l : list expense) (d : day) : float :=
  foldl PrimFloat.add 0%float (exp_amount <$> filter (λ e, day_of e = Some d) l).

Definition mean (sums : list float) : float :=
  match sums with
  | [] => 0%float
  | _ => (foldl PrimFloat.add 0 sums
          / PrimFloat.of_uint63 (Uint63.of_Z (Z.of_nat (length sums))))%float
  end.

(** ** Stores to run the functions on *)

Definition demo_db : store :=
  (add_expense "2024-02-01" 6 "Travel" "bus" (add_expense "2024-01-31" 4 "Food" "tea"
     (add_expense "2024-01-05" 10 "Food" "lunch" (initialize_db empty_db)).2).2).2.

Definition demo_table : expenses_table :=
  ExpensesTable
    [Expense 1 "2024-01-05" 10 "Food" "lunch";
     Expense 2 "2024-01-31" 4 "Food" "tea";
     Expense 3 "2024-02-01" 6 "Travel" "bus"] 3.

(** 10 on one day, 4 and 6 on another. *)
Definition average_db : store :=
  (add_expense "2024-03-02" 6 "Food" "" (add_expense "2024-03-02" 4 "Food" ""
     (add_expense "2024-03-01" 10 "Food" "" (initialize_db empty_db)).2).2).2.

Definition average_table : expenses_table :=
  ExpensesTable
    [Expense 1 "2024-03-01" 10 "Food" "";
     Expense 2 "2024-03-02" 4 "Food" "";
     Expense 3 "2024-03-02" 6 "Food" ""] 3.

(** One large expense and two small ones, on three days. *)
Definition large_db : store :=
  (add_expense "2024-03-03" 1 "Food" "" (add_expense "2024-03-02" 1 "Food" ""
     (add_expense "2024-03-01" 1e16 "Bills" "" (initialize_db empty_db)).2).2).2.

End F64.

(** ** Values with a clear sign bit

    The zero, the finite values and the infinity that are not negative: what
    sums and quotients of amounts above zero are. *)

Definition sf_nonneg (f : spec_float) : Prop :=
  match f with
  | S754_zero s | S754_infinity s | S754_finite s _ _ => s = false
  | S754_nan => False
  end.

Definition nonneg (x : float) : Prop := sf_nonneg (Prim2SF x).

(** * Properties *)

(** ** The library models on sample texts *)

Example strptime_padded : strptime "2024-01-31" = Some (2024, 1, 31).
Proof. reflexivity. Qed.

Example strptime_unpadded : strptime "2024-1-5" = Some (2024, 1, 5).
Proof. reflexivity. Qed.

Example strptime_feb30 : strptime "2023-02-29" = None.
Proof. reflexivity. Qed.

Example strptime_trailing : strptime "2024-01-311" = None.
Proof. reflexivity. Qed.

Example strftime_padded : strftime_Ym "2024-01-31" = Some "2024-01".
Proof. reflexivity. Qed.

Example strftime_unpadded : strftime_Ym "2024-1-5" = None.
Proof. reflexivity. Qed.

Example strftime_no_date : strftime_Ym "2024-01-32" = None.
Proof. reflexivity. Qed.

Example strip_food : strip "  Food " = "Food".
Proof. reflexivity. Qed.

Example strip_blank : strip "   " = "".
Proof. reflexivity. Qed.

Example demo_db_expenses : expenses demo_db = Some demo_table.
Proof. reflexivity. Qed.

(** ** Row ids *)

Lemma max_rowid_ge (l : list expense) (e : expense) :
  e ∈ l → exp_id e ≤ max_rowid l.
Proof.
  induction l as [|x l IH]; intros Hin.
  - by apply not_elem_of_nil in Hin.
  - apply elem_of_cons in Hin as [->|Hin]; simpl.
    + lia.
    + specialize (IH Hin). lia.
Qed.

Lemma rows_below_next_id (t : expenses_table) (e : expense) :
  e ∈ rows t → exp_id e < next_id t.
Proof. intros Hin. apply max_rowid_ge in Hin. unfold next_id. lia. Qed.

Lemma filter_all {A} (P : A → Prop) `{∀ x, Decision (P x)} (l : list A) :
  (∀ x, x ∈ l → P x) → filter P l = l.
Proof.
  induction l as [|x l IH]; intros Hall; [done|].
  rewrite filter_cons_True by (apply Hall; left).
  f_equal. apply IH. intros y Hy. apply Hall. by right.
Qed.

Lemma rowcount_pos (expense_id : Z) (t : expenses_table) :
  (0 < rowcount expense_id t)%nat ↔ ∃ e, e ∈ rows t ∧ exp_id e = expense_id.
Proof.
  unfold rowcount. split.
  - intros Hlen.
    destruct (filter (λ e, exp_id e = expense_id) (rows t)) as [|e l] eqn:Hf.
    + simpl in Hlen. lia.
    + exists e. assert (He : e ∈ e :: l) by left.
      rewrite <- Hf in He. apply list_elem_of_filter in He. tauto.
  - intros (e & Hin & Hid).
    assert (He : e ∈ filter (λ e, exp_id e = expense_id) (rows t))
      by (apply list_elem_of_filter; tauto).
    destruct (filter _ (rows t)); [by apply not_elem_of_nil in He | simpl; lia].
Qed.

(** ** Dates in the form YYYY-MM-DD *)

Lemma digit_cases (c : ascii) :
  is_digit c = true →
  c ∈ ["0"; "1"; "2"; "3"; "4"; "5"; "6"; "7"; "8"; "9"]%char.
Proof.
  destruct c as [[] [] [] [] [] [] [] []]; vm_compute; try discriminate;
    intros _; repeat (first [apply list_elem_of_here | apply list_elem_of_further]).
Qed.

Ltac digit_split H :=
  apply digit_cases in H;
  repeat (apply elem_of_cons in H as [->|H]); [..|by apply not_elem_of_nil in H].

Lemma digit_val_range (c : ascii) : is_digit c = true → 0 ≤ digit_val c ≤ 9.
Proof. intros H. digit_split H; vm_compute; split; discriminate. Qed.

Lemma digit_char_val (c : ascii) : is_digit c = true → digit_char (digit_val c) = c.
Proof. intros H. digit_split H; reflexivity. Qed.

Lemma digit_char_inj_val (c : ascii) (n : Z) :
  is_digit c = true → n = digit_val c → digit_char n = c.
Proof. intros H ->. by apply digit_char_val. Qed.

Lemma re_m_digits (m1 m2 : ascii) (rest : string) :
  is_digit m1 = true → is_digit m2 = true →
  1 ≤ 10 * digit_val m1 + digit_val m2 ≤ 12 →
  re_m (String m1 (String m2 rest)) = Some (String m1 (String m2 EmptyString), rest).
Proof.
  intros H1 H2 Hr. digit_split H1; digit_split H2;
    first [reflexivity | exfalso; vm_compute in Hr; destruct Hr as [Ha Hb]; first [by apply Ha | by apply Hb]].
Qed.

Lemma days_in_month_le_31 (year month : Z) : days_in_month year month ≤ 31.
Proof.
  unfold days_in_month. destruct ((month =? 2) && is_leap year); [lia|].
  destruct (Z.to_nat month) as [|[|[|[|[|[|[|[|[|[|[|[|[|[|n]]]]]]]]]]]]]]; simpl; lia.
Qed.

(** The shape of a text [iso_date] accepts. *)
Lemma iso_date_inv (s : string) :
  iso_date s = true →
  ∃ y1 y2 y3 y4 m1 m2 d1 d2 : ascii,
    s = String y1 (String y2 (String y3 (String y4 (String "-" (String m1 (String m2
          (String "-" (String d1 (String d2 EmptyString))))))))) ∧
    is_digit y1 = true ∧ is_digit y2 = true ∧ is_digit y3 = true ∧ is_digit y4 = true ∧
    is_digit m1 = true ∧ is_digit m2 = true ∧ is_digit d1 = true ∧ is_digit d2 = true ∧
    check_date_fields
      (1000 * digit_val y1 + 100 * digit_val y2 + 10 * digit_val y3 + digit_val y4)
      (10 * digit_val m1 + digit_val m2) (10 * digit_val d1 + digit_val d2) = true.
Proof.
  intros H.
  destruct s as [|y1 [|y2 [|y3 [|y4 [|s1 [|m1 [|m2 [|s2 [|d1 [|d2 [|? ?]]]]]]]]]]];
    try discriminate H.
  simpl in H. repeat (apply andb_prop in H as [H ?]).
  assert (s1 = "-"%char) as ->.
  { destruct s1 as [[] [] [] [] [] [] [] []]; try discriminate; reflexivity. }
  assert (s2 = "-"%char) as ->.
  { destruct s2 as [[] [] [] [] [] [] [] []]; try discriminate; reflexivity. }
  exists y1, y2, y3, y4, m1, m2, d1, d2.
  split_and!; try done.
  unfold check_date_fields. repeat (apply andb_true_intro; split); done.
Qed.

Lemma check_date_fields_inv (y m d : Z) :
  check_date_fields y m d = true →
  1 ≤ y ≤ 9999 ∧ 1 ≤ m ≤ 12 ∧ 1 ≤ d ≤ days_in_month y m.
Proof. unfold check_date_fields. intros H. repeat (apply andb_prop in H as [H ?]). lia. Qed.

Lemma fmt04_digits (y1 y2 y3 y4 : ascii) :
  is_digit y1 = true → is_digit y2 = true → is_digit y3 = true → is_digit y4 = true →
  fmt04 (1000 * digit_val y1 + 100 * digit_val y2 + 10 * digit_val y3 + digit_val y4) =
    String y1 (String y2 (String y3 (String y4 EmptyString))).
Proof.
  intros H1 H2 H3 H4.
  pose proof (digit_val_range _ H1). pose proof (digit_val_range _ H2).
  pose proof (digit_val_range _ H3). pose proof (digit_val_range _ H4).
  unfold fmt04.
  rewrite (digit_char_inj_val y1), (digit_char_inj_val y2),
          (digit_char_inj_val y3), (digit_char_inj_val y4);
    first [done | Z.div_mod_to_equations; lia].
Qed.

Lemma fmt02_digits (m1 m2 : ascii) :
  is_digit m1 = true → is_digit m2 = true →
  fmt02 (10 * digit_val m1 + digit_val m2) = String m1 (String m2 EmptyString).
Proof.
  intros H1 H2.
  pose proof (digit_val_range _ H1). pose proof (digit_val_range _ H2).
  unfold fmt02.
  rewrite (digit_char_inj_val m1), (digit_char_inj_val m2);
    first [done | Z.div_mod_to_equations; lia].
Qed.

(** SQLite reads such a date and gives its first seven characters. *)
Lemma strftime_Ym_iso_date (s : string) :
  iso_date s = true → strftime_Ym s = Some (year_month s).
Proof.
  intros (y1 & y2 & y3 & y4 & m1 & m2 & d1 & d2 & -> & Hy1 & Hy2 & Hy3 & Hy4 &
          Hm1 & Hm2 & Hd1 & Hd2 & Hc)%iso_date_inv.
  pose proof (check_date_fields_inv _ _ _ Hc) as (Hy & Hm & Hd).
  pose proof (days_in_month_le_31
                (1000 * digit_val y1 + 100 * digit_val y2 + 10 * digit_val y3 + digit_val y4)
                (10 * digit_val m1 + digit_val m2)) as H31.
  unfold strftime_Ym, parseYyyyMmDd.
  rewrite Hy1, Hy2, Hy3, Hy4, Hm1, Hm2, Hd1, Hd2. simpl.
  replace ((1 <=? 10 * digit_val m1 + digit_val m2) &&
           (10 * digit_val m1 + digit_val m2 <=? 12) &&
           (1 <=? 10 * digit_val d1 + digit_val d2) &&
           (10 * digit_val d1 + digit_val d2 <=? 31)) with true
    by (symmetry; repeat (apply andb_true_intro; split); apply Z.leb_le; lia).
  simpl. rewrite fmt04_digits, fmt02_digits by done. reflexivity.
Qed.

(** ** Sums of amounts *)


Lemma Qle_bool_false (a b : Q) : (b < a)%Q → Qle_bool a b = false.
Proof.
  intros Hlt. destruct (Qle_bool a b) eqn:H; [|done].
  apply Qle_bool_iff in H. lra.
Qed.

(** ** Adding an expense *)

(** A rejected call leaves the stored state alone, and the rejected calls are
    those whose date [strptime] refuses or whose amount is not above zero. *)
Lemma add_expense_rejected (date_str : string) (amount : Q) (category note : string)
    (db db' : store) :
  add_expense date_str amount category note db = (Returns false, db') →
  db' = db ∧ (strptime date_str = None ∨ (amount <= 0)%Q).
Proof.
  unfold add_expense. intros H.
  destruct (strptime date_str); [|by inversion H; auto].
  destruct (Qle_bool amount 0) eqn:Hle.
  - apply Qle_bool_iff in Hle. inversion H; auto.
  - destruct (expenses db); inversion H.
Qed.

Lemma add_expense_rejects (date_str : string) (amount : Q) (category note : string)
    (db : store) :
  strptime date_str = None ∨ (amount <= 0)%Q →
  add_expense date_str amount category note db = (Returns false, db).
Proof.
  unfold add_expense. intros [->|Hle]; [done|].
  destruct (strptime date_str); [|done].
  apply Qle_bool_iff in Hle. by rewrite Hle.
Qed.

(** C2, at the call [add_expense("2024-1-5", 10.0, "Food", "lunch")] on a
    freshly initialised store.  The date is not in the form YYYY-MM-DD, since
    month and day lack their leading zero, yet [strptime] parses it: the call
    returns [True] and writes the row, with the text as given.  SQLite does
    not read that text as a date, so the total of January 2024 stays 0. *)
Theorem add_expense_unpadded_date :
  let db := initialize_db empty_db in
  let db' := (add_expense "2024-1-5" 10 "Food" "lunch" db).2 in
  iso_date "2024-1-5" = false ∧
  (add_expense "2024-1-5" 10 "Food" "lunch" db).1 = Returns true ∧
  db' ≠ db ∧
  get_all_expenses db' = Returns [Expense 1 "2024-1-5" 10 "Food" "lunch"] ∧
  get_total_expenses_for_month "2024-01" db' = Returns 0%Q.
Proof.
  split_and!; try reflexivity.
  intros H. apply (f_equal expenses) in H. vm_compute in H. discriminate H.
Qed.

(** ** The budget status *)

Lemma Qgt_bool_true (a b : Q) : Qgt_bool a b = true ↔ (b < a)%Q.
Proof.
  unfold Qgt_bool. rewrite negb_true_iff.
  split.
  - intros H. apply Qnot_le_lt. intros Hle%Qle_bool_iff. congruence.
  - apply Qle_bool_false.
Qed.

Lemma Qgt_bool_false (a b : Q) : Qgt_bool a b = false ↔ (a <= b)%Q.
Proof.
  unfold Qgt_bool. rewrite negb_false_iff. apply Qle_bool_iff.
Qed.

(** ** The order on TEXT *)

Lemma text_le_refl (a : string) : text_le a a.
Proof.
  unfold text_le, String.leb.
  destruct (String.leb_total a a) as [H|H]; exact H.
Qed.

Lemma text_le_total (a b : string) : text_le a b ∨ text_le b a.
Proof. apply String.leb_total. Qed.

Lemma text_le_trans (a b c : string) : text_le a b → text_le b c → text_le a c.
Proof.
  unfold text_le, String.leb. revert b c.
  induction a as [|x a IH]; intros [|y b] [|z c]; simpl; try done.
  unfold Ascii.compare.
  destruct (N.compare_spec (N_of_ascii x) (N_of_ascii y)) as [Hxy|Hxy|Hxy];
    destruct (N.compare_spec (N_of_ascii y) (N_of_ascii z)) as [Hyz|Hyz|Hyz];
    try done.
  - rewrite Hxy, Hyz, N.compare_refl. apply IH.
  - rewrite Hxy. apply N.compare_lt_iff in Hyz. by rewrite Hyz.
  - rewrite <- Hyz. apply N.compare_lt_iff in Hxy. by rewrite Hxy.
  - assert (Hxz : (N_of_ascii x < N_of_ascii z)%N) by lia.
    apply N.compare_lt_iff in Hxz. by rewrite Hxz.
Qed.

#[global] Instance text_le_Total : Total text_le.
Proof. intros a b. apply text_le_total. Qed.

#[global] Instance text_le_Transitive : Transitive text_le.
Proof. intros a b c. apply text_le_trans. Qed.

#[global] Instance date_asc_Total : Total date_asc.
Proof. intros a b. apply text_le_total. Qed.

#[global] Instance date_asc_Transitive : Transitive date_asc.
Proof. intros a b c. apply text_le_trans. Qed.

#[global] Instance date_desc_Total : Total date_desc.
Proof. intros a b. unfold date_desc. destruct (text_le_total (exp_date a) (exp_date b)); auto. Qed.

#[global] Instance date_desc_Transitive : Transitive date_desc.
Proof. intros a b c Hab Hbc. unfold date_desc in *. by eapply text_le_trans. Qed.

(** ** Expenses in a date range *)

(** C6. On a store that has the expenses table,
    [get_expenses_in_date_range] returns the date, amount, category and note
    of exactly the stored expenses whose date text lies between the two
    bounds in the lexicographic order of the texts, both bounds included,
    each as often as it is stored, and in ascending order of the date. *)
Theorem date_range_inclusive_sorted (start_date end_date : string)
    (db : store) (t : expenses_table) :
  expenses db = Some t →
  ∃ result : list (string * Q * string * string),
    get_expenses_in_date_range start_date end_date db = Returns result ∧
    result ≡ₚ (λ e, (exp_date e, exp_amount e, exp_category e, exp_note e)) <$>
                filter (λ e, text_le start_date (exp_date e) ∧
                             text_le (exp_date e) end_date) (rows t) ∧
    (∀ date amount category note,
       (date, amount, category, note) ∈ result ↔
       String.leb start_date date = true ∧ String.leb date end_date = true ∧
       ∃ e, e ∈ rows t ∧ exp_date e = date ∧ exp_amount e = amount ∧
            exp_category e = category ∧ exp_note e = note) ∧
    StronglySorted (λ a b, String.leb a.1.1.1 b.1.1.1 = true) result.
Proof.
  intros Ht. unfold get_expenses_in_date_range. rewrite Ht.
  eexists. split; [reflexivity|].
  assert (Hperm : range_columns <$>
                    merge_sort date_asc (filter (between start_date end_date) (rows t))
                  ≡ₚ range_columns <$> filter (between start_date end_date) (rows t)).
  { apply fmap_Permutation, merge_sort_Permutation. }
  split_and!.
  - exact Hperm.
  - intros date amount category note. rewrite Hperm, list_elem_of_fmap. split.
    + intros (e & [= -> -> -> ->] & ([Hlo Hhi] & Hin)%list_elem_of_filter).
      split_and!; [exact Hlo | exact Hhi |]. by exists e.
    + intros (Hlo & Hhi & e & Hin & <- & <- & <- & <-). exists e. split; [done|].
      apply list_elem_of_filter. split; [by split | done].
  - apply StronglySorted_fmap with (R1 := date_asc).
    + intros a b Hab. exact Hab.
    + apply StronglySorted_merge_sort; apply _.
Qed.

Lemma date_range_inclusive_sorted_witness :
  expenses demo_db = Some demo_table ∧
  ∃ result : list (string * Q * string * string),
    get_expenses_in_date_range "2024-01-01" "2024-01-31" demo_db = Returns result ∧
    result ≡ₚ (λ e, (exp_date e, exp_amount e, exp_category e, exp_note e)) <$>
                filter (λ e, text_le "2024-01-01" (exp_date e) ∧
                             text_le (exp_date e) "2024-01-31") (rows demo_table) ∧
    (∀ date amount category note,
       (date, amount, category, note) ∈ result ↔
       String.leb "2024-01-01" date = true ∧ String.leb date "2024-01-31" = true ∧
       ∃ e, e ∈ rows demo_table ∧ exp_date e = date ∧ exp_amount e = amount ∧
            exp_category e = category ∧ exp_note e = note) ∧
    StronglySorted (λ a b, String.leb a.1.1.1 b.1.1.1 = true) result.
Proof.
  split; [reflexivity|].
  apply (date_range_inclusive_sorted "2024-01-01" "2024-01-31" demo_db demo_table).
  reflexivity.
Defined.

(** The example of the specification: the range from 2024-01-01 to 2024-01-31
    has the expense of 2024-01-31 and not the one of 2024-02-01. *)
Example date_range_example :
  get_expenses_in_date_range "2024-01-01" "2024-01-31" demo_db =
    Returns [("2024-01-05", 10%Q, "Food", "lunch"); ("2024-01-31", 4%Q, "Food", "tea")].
Proof. reflexivity. Qed.

(** ** Categories *)

Lemma is_empty_true (s : string) : is_empty s = true ↔ s = "".
Proof. destruct s; simpl; split; congruence. Qed.

Lemma filter_eq_absent {A} `{EqDecision A} (l : list A) (x : A) :
  x ∉ l → filter (λ y, y = x) l = [].
Proof.
  induction l as [|z l IH]; [done|].
  intros [Hne Hnot]%not_elem_of_cons.
  rewrite filter_cons_False by congruence. by apply IH.
Qed.

Lemma filter_eq_NoDup {A} `{EqDecision A} (l : list A) (x : A) :
  NoDup l → x ∈ l → filter (λ y, y = x) l = [x].
Proof.
  induction 1 as [|y l Hy Hnd IH]; intros Hin.
  - by apply not_elem_of_nil in Hin.
  - destruct (decide (y = x)) as [->|Hne].
    + rewrite filter_cons_True by done. f_equal. by apply filter_eq_absent.
    + rewrite filter_cons_False by done. apply IH.
      apply elem_of_cons in Hin as [->|Hin]; [done|exact Hin].
Qed.

Lemma get_categories_elem (db : store) (c : gset string) :
  categories db = Some c →
  ∃ names, get_categories db = Returns names ∧ NoDup names ∧
           StronglySorted text_le names ∧ ∀ n, n ∈ names ↔ n ∈ c.
Proof.
  intros Hc. unfold get_categories. rewrite Hc. eexists. split_and!.
  - reflexivity.
  - rewrite merge_sort_Permutation. apply NoDup_elements.
  - apply StronglySorted_merge_sort; apply _.
  - intros n. rewrite merge_sort_Permutation. apply elem_of_elements.
Qed.

Lemma add_category_fresh (category_name : string) (db : store) (c : gset string) :
  categories db = Some c → strip category_name ≠ "" → category_name ∉ c →
  add_category category_name db =
    (Returns (true, "Category '" ++ category_name ++ "' added successfully."),
     set_categories ({[category_name]} ∪ c) db).
Proof.
  intros Hc Hs Hn. unfold add_category. rewrite Hc.
  destruct (is_empty (strip category_name)) eqn:He.
  - by apply is_empty_true in He.
  - by rewrite decide_False.
Qed.

Lemma add_category_stored (category_name : string) (db : store) (c : gset string) :
  categories db = Some c → strip category_name ≠ "" → category_name ∈ c →
  add_category category_name db =
    (Returns (false, "Error: Category '" ++ category_name ++ "' already exists."), db).
Proof.
  intros Hc Hs Hn. unfold add_category. rewrite Hc.
  destruct (is_empty (strip category_name)) eqn:He.
  - by apply is_empty_true in He.
  - by rewrite decide_True.
Qed.

(** C7. A name that is empty after [strip] is refused before the store is
    looked at, with a message of its own.  A name that is stored already is
    refused with another message, which names the conflict, and the store
    stays as it is.  So after two calls with a name that was not stored, the
    first succeeds, the second reports the conflict, and [get_categories] has
    the name exactly once. *)
Theorem add_category_outcomes (category_name : string) (db : store) (c : gset string) :
  categories db = Some c →
  (∀ db0, strip category_name = "" →
     add_category category_name db0 =
       (Returns (false, "Category name cannot be empty."), db0)) ∧
  (strip category_name ≠ "" → category_name ∈ c →
     add_category category_name db =
       (Returns (false, "Error: Category '" ++ category_name ++ "' already exists."), db)) ∧
  "Category name cannot be empty." ≠
    "Error: Category '" ++ category_name ++ "' already exists." ∧
  (strip category_name ≠ "" → category_name ∉ c →
     ∃ (db1 : store) (names : list string),
       add_category category_name db =
         (Returns (true, "Category '" ++ category_name ++ "' added successfully."), db1) ∧
       add_category category_name db1 =
         (Returns (false, "Error: Category '" ++ category_name ++ "' already exists."), db1) ∧
       get_categories db1 = Returns names ∧
       filter (λ n, n = category_name) names = [category_name]).
Proof.
  intros Hc. split_and!.
  - intros db0 Hs. unfold add_category. by rewrite Hs.
  - intros Hs Hin. by apply add_category_stored with c.
  - discriminate.
  - intros Hs Hnew.
    set (db1 := set_categories ({[category_name]} ∪ c) db).
    destruct (get_categories_elem db1 ({[category_name]} ∪ c) eq_refl)
      as (names & Hget & Hnd & _ & Hel).
    exists db1, names. split_and!.
    + by apply add_category_fresh.
    + apply add_category_stored with ({[category_name]} ∪ c); [done|done|].
      apply elem_of_union_l. by apply elem_of_singleton.
    + exact Hget.
    + apply filter_eq_NoDup; [done|]. apply Hel.
      apply elem_of_union_l. by apply elem_of_singleton.
Qed.

Lemma add_category_outcomes_witness :
  categories (initialize_db empty_db) = Some default_category_set ∧
  strip "   " = "" ∧ strip "Pets" ≠ "" ∧ ("Pets" ∉ default_category_set) ∧
  ("Food" ∈ default_category_set) ∧
  add_category "   " empty_db = (Returns (false, "Category name cannot be empty."), empty_db) ∧
  add_category "Food" (initialize_db empty_db) =
    (Returns (false, "Error: Category 'Food' already exists."), initialize_db empty_db) ∧
  ∃ (db1 : store) (names : list string),
    add_category "Pets" (initialize_db empty_db) =
      (Returns (true, "Category 'Pets' added successfully."), db1) ∧
    add_category "Pets" db1 =
      (Returns (false, "Error: Category 'Pets' already exists."), db1) ∧
    get_categories db1 = Returns names ∧
    filter (λ n, n = "Pets") names = ["Pets"].
Proof.
  assert (Hc : categories (initialize_db empty_db) = Some default_category_set)
    by reflexivity.
  assert (Hblank : strip "   " = "") by reflexivity.
  assert (Hpets : strip "Pets" ≠ "") by discriminate.
  assert (Hfood : strip "Food" ≠ "") by discriminate.
  assert (Hnew : "Pets" ∉ default_category_set)
    by (apply (bool_decide_unpack _); vm_compute; exact I).
  assert (Hold : "Food" ∈ default_category_set)
    by (apply (bool_decide_unpack _); vm_compute; exact I).
  split_and!; try assumption.
  - exact (proj1 (add_category_outcomes "   " _ _ Hc) empty_db Hblank).
  - exact (proj1 (proj2 (add_category_outcomes "Food" _ _ Hc)) Hfood Hold).
  - exact (proj2 (proj2 (proj2 (add_category_outcomes "Pets" _ _ Hc))) Hpets Hnew).
Defined.

(** The example of the specification, on a store without the defaults:
    the first call succeeds, the second reports the conflict. *)
Example add_category_twice :
  let db0 := set_categories ∅ empty_db in
  let db1 := (add_category "Food" db0).2 in
  (add_category "Food" db0).1 = Returns (true, "Category 'Food' added successfully.") ∧
  add_category "Food" db1 = (Returns (false, "Error: Category 'Food' already exists."), db1) ∧
  get_categories db1 = Returns ["Food"].
Proof. split_and!; reflexivity. Qed.

(** C10. A name that is not empty after [strip] is kept as given, on a
    store that has the categories table: after the call the names
    [get_categories] returns are the given text and the names stored before,
    nothing else, and when the text was not stored the call succeeds.  The
    text is compared and stored as it is, so a name with blanks around it is
    another category than the name without them. *)
Theorem add_category_verbatim (category_name : string) (db : store) (c : gset string) :
  categories db = Some c →
  strip category_name ≠ "" →
  ∃ (r : bool * string) (db' : store) (names : list string),
    add_category category_name db = (Returns r, db') ∧
    get_categories db' = Returns names ∧
    (∀ n, n ∈ names ↔ n = category_name ∨ n ∈ c) ∧
    (category_name ∉ c → r.1 = true ∧ names ≡ₚ category_name :: elements c) ∧
    (strip category_name ∈ c → category_name ∉ c →
       r.1 = true ∧ category_name ∈ names ∧ strip category_name ∈ names).
Proof.
  intros Hc Hs.
  destruct (decide (category_name ∈ c)) as [Hin|Hnew].
  - destruct (get_categories_elem db c Hc) as (names & Hget & _ & _ & Hel).
    eexists _, db, names. split_and!.
    + by apply add_category_stored with c.
    + exact Hget.
    + intros n. rewrite Hel. split; [auto|]. by intros [->|?].
    + done.
    + done.
  - set (db1 := set_categories ({[category_name]} ∪ c) db).
    destruct (get_categories_elem db1 ({[category_name]} ∪ c) eq_refl)
      as (names & Hget & Hnd & _ & Hel).
    assert (Hmem : ∀ n, n ∈ names ↔ n = category_name ∨ n ∈ c).
    { intros n. by rewrite Hel, elem_of_union, elem_of_singleton. }
    eexists _, db1, names. split_and!.
    + by apply add_category_fresh.
    + exact Hget.
    + exact Hmem.
    + intros _. split; [done|].
      apply NoDup_Permutation; [done| |].
      * apply NoDup_cons. split; [by rewrite elem_of_elements | apply NoDup_elements].
      * intros n. by rewrite Hmem, elem_of_cons, elem_of_elements.
    + intros Hstrip _. split_and!; [done | apply Hmem; auto | apply Hmem; auto].
Qed.

Lemma add_category_verbatim_witness :
  categories (initialize_db empty_db) = Some default_category_set ∧
  strip " Food " ≠ "" ∧
  ∃ (r : bool * string) (db' : store) (names : list string),
    add_category " Food " (initialize_db empty_db) = (Returns r, db') ∧
    get_categories db' = Returns names ∧
    (∀ n, n ∈ names ↔ n = " Food " ∨ n ∈ default_category_set) ∧
    (" Food " ∉ default_category_set →
       r.1 = true ∧ names ≡ₚ " Food " :: elements default_category_set) ∧
    (strip " Food " ∈ default_category_set → " Food " ∉ default_category_set →
       r.1 = true ∧ " Food " ∈ names ∧ strip " Food " ∈ names).
Proof.
  split; [reflexivity|]. split; [discriminate|].
  apply (add_category_verbatim " Food " (initialize_db empty_db) default_category_set);
    [reflexivity | discriminate].
Defined.

(** A name with blanks around it next to the name without them. *)
Example add_category_blanks :
  add_category " Food " (initialize_db empty_db) =
    (Returns (true, "Category ' Food ' added successfully."),
     set_categories ({[" Food "]} ∪ default_category_set) (initialize_db empty_db)) ∧
  get_categories (add_category " Food " (initialize_db empty_db)).2 =
    Returns [" Food "; "Bills"; "Food"; "Misc"; "Shopping"; "Travel"].
Proof. split; reflexivity. Qed.

(** ** Initialisation *)

Lemma seeded_nonempty : foldl (λ acc cat, {[cat]} ∪ acc) (∅ : gset string) default_categories ≠ ∅.
Proof.
  intros H.
  assert (Hin : "Food" ∈ foldl (λ acc cat, {[cat]} ∪ acc) (∅ : gset string) default_categories)
    by (apply (bool_decide_unpack _); vm_compute; exact I).
  rewrite H in Hin. by apply not_elem_of_empty in Hin.
Qed.

Lemma initialize_db_initialized (db : store) : initialized (initialize_db db).
Proof.
  unfold initialized, initialize_db. eexists _, _, _, _. split_and!.
  - reflexivity.
  - destruct (decide (size (default ∅ (categories db)) = 0%nat)) as [Hz|Hnz].
    + apply size_empty_iff, leibniz_equiv in Hz. rewrite Hz. apply seeded_nonempty.
    + intros He. rewrite He in Hnz. by rewrite size_empty in Hnz.
  - destruct (default ∅ (settings db) !! "currency_symbol") eqn:Hl.
    + by rewrite Hl.
    + by rewrite lookup_insert_eq.
Qed.

Lemma initialize_db_fixed (db : store) : initialized db → initialize_db db = db.
Proof.
  intros (t & c & g & st & -> & Hc & [v Hv]).
  unfold initialize_db. simpl. rewrite Hv.
  rewrite decide_False; [done|].
  intros Hz. by apply size_empty_iff, leibniz_equiv in Hz.
Qed.

Lemma run_initialized (c : call) (db : store) : initialized db → initialized (run c db).
Proof.
  intros Hi. destruct c as [|key value|date_str amount category note|expense_id|name|month goal].
  - apply initialize_db_initialized.
  - destruct Hi as (t & c & g & st & -> & Hc & Hv). simpl.
    exists t, c, g, (<[key := value]> st). split_and!; [done|done|].
    destruct (decide (key = "currency_symbol")) as [->|Hne].
    + by rewrite lookup_insert_eq.
    + by rewrite lookup_insert_ne.
  - destruct Hi as (t & c & g & st & -> & Hc & Hv). simpl. unfold add_expense.
    destruct (strptime date_str); [|by exists t, c, g, st].
    destruct (Qle_bool amount 0); [by exists t, c, g, st|]. simpl.
    by eexists _, c, g, st.
  - destruct Hi as (t & c & g & st & -> & Hc & Hv). simpl.
    by eexists _, c, g, st.
  - destruct Hi as (t & c & g & st & -> & Hc & Hv). simpl. unfold add_category.
    destruct (is_empty (strip name)); [by exists t, c, g, st|]. simpl.
    destruct (decide (name ∈ c)) as [Hin|Hnew]; [by exists t, c, g, st|]. simpl.
    exists t, ({[name]} ∪ c), g, st. split_and!; [done| |done].
    intros He. assert (Hin : name ∈ ({[name]} ∪ c)) by (apply elem_of_union_l; by apply elem_of_singleton).
    rewrite He in Hin. by apply not_elem_of_empty in Hin.
  - destruct Hi as (t & c & g & st & -> & Hc & Hv). simpl.
    by eexists t, c, _, st.
Qed.

Lemma reachable_initialized (db : store) : reachable db → initialized db.
Proof.
  induction 1 as [|c db _ IH].
  - apply initialize_db_initialized.
  - by apply run_initialized.
Qed.

(** C8. On a new database file [initialize_db] creates the four tables, with
    no expense and no goal, the currency symbol "$" and the five default
    categories.  It seeds the categories only when there is none and never
    replaces a stored currency symbol.  Calling it twice is calling it once,
    and on every state the program can reach after the first call it changes
    nothing. *)
Theorem initialize_db_idempotent :
  initialize_db empty_db =
    Store (Some (ExpensesTable [] 0)) (Some default_category_set) (Some ∅)
          (Some {["currency_symbol" := "$"]}) ∧
  (∀ n, n ∈ default_category_set ↔ n ∈ ["Food"; "Travel"; "Shopping"; "Bills"; "Misc"]) ∧
  (∀ db c, categories db = Some c → c ≠ ∅ → categories (initialize_db db) = Some c) ∧
  (∀ db st v, settings db = Some st → st !! "currency_symbol" = Some v →
              settings (initialize_db db) = Some st) ∧
  (∀ db, initialize_db (initialize_db db) = initialize_db db) ∧
  (∀ db, reachable db → initialize_db db = db).
Proof.
  split_and!.
  - reflexivity.
  - intros n. unfold default_category_set. apply elem_of_list_to_set.
  - intros db c Hc Hne. unfold initialize_db. rewrite Hc. simpl.
    rewrite decide_False; [done|].
    intros Hz. by apply size_empty_iff, leibniz_equiv in Hz.
  - intros db st v Hst Hv. unfold initialize_db. rewrite Hst. simpl. by rewrite Hv.
  - intros db. apply initialize_db_fixed, initialize_db_initialized.
  - intros db Hr. by apply initialize_db_fixed, reachable_initialized.
Qed.

Lemma initialize_db_idempotent_witness :
  reachable used_db ∧
  initialize_db used_db = used_db ∧
  get_setting "currency_symbol" (initialize_db used_db) = Returns (Some "EUR") ∧
  get_categories (initialize_db used_db) =
    Returns ["Bills"; "Food"; "Misc"; "Pets"; "Shopping"; "Travel"].
Proof.
  assert (Hr : reachable used_db) by (do 2 apply reachable_run; apply reachable_init).
  pose proof (proj2 (proj2 (proj2 (proj2 (proj2 initialize_db_idempotent)))) used_db Hr)
    as Hfix.
  split_and!.
  - exact Hr.
  - exact Hfix.
  - rewrite Hfix. reflexivity.
  - rewrite Hfix. reflexivity.
Defined.

(** ** Character codes *)

Lemma code_inj (c d : ascii) : code c = code d → c = d.
Proof.
  unfold code. intros H%(inj Z.of_N).
  rewrite <- (ascii_N_embedding c), <- (ascii_N_embedding d). by rewrite H.
Qed.

(** ** The expenses table over time *)

Lemma max_rowid_nonneg (l : list expense) : 0 ≤ max_rowid l.
Proof. induction l as [|e l IH]; simpl; lia. Qed.

Lemma NoDup_fmap_filter {A B} (f : A → B) (P : A → Prop) `{∀ x, Decision (P x)}
    (l : list A) :
  NoDup (f <$> l) → NoDup (f <$> filter P l).
Proof.
  induction l as [|x l IH]; [done|].
  rewrite fmap_cons, NoDup_cons. intros [Hx Hl].
  rewrite filter_cons. destruct (decide (P x)); [|by apply IH].
  rewrite fmap_cons, NoDup_cons. split; [|by apply IH].
  intros (y & Hy & [_ Hin]%list_elem_of_filter)%list_elem_of_fmap.
  apply Hx. apply list_elem_of_fmap. eauto.
Qed.

(** Deleting and adding again: the id of the deleted expense is not used
    for the new one. *)
Example delete_then_add :
  rows <$> expenses (run (AddExpense "2024-02-02" 1 "Misc" "")
                       (run (DeleteExpense 3) demo_db)) =
    Some [Expense 1 "2024-01-05" 10 "Food" "lunch";
          Expense 2 "2024-01-31" 4 "Food" "tea";
          Expense 4 "2024-02-02" 1 "Misc" ""].
Proof. reflexivity. Qed.

(** * Further properties of the module *)

(** ** Settings and goals *)

(** X1. On a store that has the settings table, [update_setting] followed by
    [get_setting] of the same key gives the value written, every other key
    reads as before, a second write to the key replaces the first, and the
    three other tables are as before. *)
Theorem update_setting_get_setting (key value : string) (db : store)
    (st : gmap string string) :
  settings db = Some st →
  ∃ db', update_setting key value db = (Returns (), db') ∧
    get_setting key db' = Returns (Some value) ∧
    (∀ key', key' ≠ key → get_setting key' db' = get_setting key' db) ∧
    (∀ value', update_setting key value' db' = update_setting key value' db) ∧
    expenses db' = expenses db ∧ categories db' = categories db ∧ goals db' = goals db.
Proof.
  intros Hst. exists (set_settings (<[key := value]> st) db). split_and!.
  - unfold update_setting. by rewrite Hst.
  - unfold get_setting. simpl. by rewrite lookup_insert_eq.
  - intros key' Hne. unfold get_setting. simpl. by rewrite Hst, lookup_insert_ne.
  - intros value'. unfold update_setting. simpl. rewrite Hst.
    unfold set_settings. simpl. by rewrite insert_insert_eq.
  - done.
  - done.
  - done.
Qed.

Lemma update_setting_get_setting_witness :
  settings (initialize_db empty_db) = Some {["currency_symbol" := "$"]} ∧
  ∃ db', update_setting "currency_symbol" "EUR" (initialize_db empty_db) = (Returns (), db') ∧
    get_setting "currency_symbol" db' = Returns (Some "EUR") ∧
    (∀ key', key' ≠ "currency_symbol" →
       get_setting key' db' = get_setting key' (initialize_db empty_db)) ∧
    (∀ value', update_setting "currency_symbol" value' db' =
               update_setting "currency_symbol" value' (initialize_db empty_db)) ∧
    expenses db' = expenses (initialize_db empty_db) ∧
    categories db' = categories (initialize_db empty_db) ∧
    goals db' = goals (initialize_db empty_db).
Proof.
  split; [reflexivity|].
  apply (update_setting_get_setting "currency_symbol" "EUR" (initialize_db empty_db)
           {["currency_symbol" := "$"]}).
  reflexivity.
Defined.

(** X2. On a store that has the goals table, [get_monthly_goal] returns 0
    for a month without a goal; after [set_monthly_goal] it returns the
    amount written for that month and what it returned before for every
    other month; a second write for the month replaces the first; and the
    three other tables are as before.  No amount is refused. *)
Theorem set_monthly_goal_get_monthly_goal (month_str : string) (goal_amount : Q)
    (db : store) (g : gmap string Q) :
  goals db = Some g →
  (g !! month_str = None → get_monthly_goal month_str db = Returns 0%Q) ∧
  ∃ db', set_monthly_goal month_str goal_amount db = (Returns (), db') ∧
    get_monthly_goal month_str db' = Returns goal_amount ∧
    (∀ month', month' ≠ month_str →
       get_monthly_goal month' db' = get_monthly_goal month' db) ∧
    (∀ amount', set_monthly_goal month_str amount' db' =
                set_monthly_goal month_str amount' db) ∧
    expenses db' = expenses db ∧ categories db' = categories db ∧
    settings db' = settings db.
Proof.
  intros Hg. split.
  - intros Hnone. unfold get_monthly_goal. by rewrite Hg, Hnone.
  - exists (set_goals (<[month_str := goal_amount]> g) db). split_and!.
    + unfold set_monthly_goal. by rewrite Hg.
    + unfold get_monthly_goal. simpl. by rewrite lookup_insert_eq.
    + intros month' Hne. unfold get_monthly_goal. simpl.
      by rewrite Hg, lookup_insert_ne.
    + intros amount'. unfold set_monthly_goal. simpl. rewrite Hg.
      unfold set_goals. simpl. by rewrite insert_insert_eq.
    + done.
    + done.
    + done.
Qed.

Lemma set_monthly_goal_get_monthly_goal_witness :
  goals (initialize_db empty_db) = Some ∅ ∧
  ((∅ : gmap string Q) !! "2024-01" = None →
     get_monthly_goal "2024-01" (initialize_db empty_db) = Returns 0%Q) ∧
  ∃ db', set_monthly_goal "2024-01" (-5) (initialize_db empty_db) = (Returns (), db') ∧
    get_monthly_goal "2024-01" db' = Returns (-5)%Q ∧
    (∀ month', month' ≠ "2024-01" →
       get_monthly_goal month' db' = get_monthly_goal month' (initialize_db empty_db)) ∧
    (∀ amount', set_monthly_goal "2024-01" amount' db' =
                set_monthly_goal "2024-01" amount' (initialize_db empty_db)) ∧
    expenses db' = expenses (initialize_db empty_db) ∧
    categories db' = categories (initialize_db empty_db) ∧
    settings db' = settings (initialize_db empty_db).
Proof.
  split; [reflexivity|].
  apply (set_monthly_goal_get_monthly_goal "2024-01" (-5) (initialize_db empty_db) ∅).
  reflexivity.
Defined.

(** ** States the program can reach *)

Lemma seed_superset (c : gset string) (l : list string) :
  c ⊆ foldl (λ acc cat, {[cat]} ∪ acc) c l.
Proof.
  revert c. induction l as [|x l IH]; intros c; simpl; [done|].
  etrans; [|apply IH]. apply union_subseteq_r.
Qed.

Lemma run_categories (call : call) (db : store) (c : gset string) :
  categories db = Some c →
  ∃ c', categories (run call db) = Some c' ∧ c ⊆ c'.
Proof.
  intros Hc.
  destruct call as [|key value|date_str amount category note|expense_id|name|month goal];
    simpl.
  - unfold initialize_db. rewrite Hc. simpl.
    destruct (decide (size c = 0%nat)); eexists; (split; [reflexivity|]);
      [exact (seed_superset c default_categories) | done].
  - unfold update_setting. destruct (settings db); by exists c.
  - unfold add_expense. destruct (strptime date_str); [|by exists c].
    destruct (Qle_bool amount 0); [by exists c|].
    destruct (expenses db); by exists c.
  - unfold delete_expense. destruct (expenses db); by exists c.
  - unfold add_category. destruct (is_empty (strip name)); [by exists c|].
    rewrite Hc. destruct (decide (name ∈ c)); [by exists c|].
    eexists. split; [reflexivity|]. apply union_subseteq_r.
  - unfold set_monthly_goal. destruct (goals db); by exists c.
Qed.

Lemma run_all_categories (cs : list call) (db : store) (c : gset string) :
  categories db = Some c →
  ∃ c', categories (run_all cs db) = Some c' ∧ c ⊆ c'.
Proof.
  revert db c. induction cs as [|x cs IH]; intros db c Hc; simpl.
  - by exists c.
  - destruct (run_categories x db c Hc) as (c1 & Hc1 & Hsub1).
    destruct (IH _ _ Hc1) as (c' & Hc' & Hsub'). exists c'. split; [done|].
    by etrans.
Qed.

Lemma reachable_defaults (db : store) :
  reachable db → ∃ c, categories db = Some c ∧ default_category_set ⊆ c.
Proof.
  induction 1 as [|x db _ (c & Hc & Hsub)].
  - exists default_category_set. split; reflexivity.
  - destruct (run_categories x db c Hc) as (c' & Hc' & Hsub'). exists c'.
    split; [done|]. by etrans.
Qed.

(** X4. In every state the program can reach, [get_categories] lists the
    five default categories, and whatever is called afterwards, every name it
    lists stays listed: no function removes a category. *)
Theorem categories_only_grow (db : store) :
  reachable db →
  ∃ names, get_categories db = Returns names ∧
    (∀ n, n ∈ ["Food"; "Travel"; "Shopping"; "Bills"; "Misc"] → n ∈ names) ∧
    (∀ cs, ∃ names', get_categories (run_all cs db) = Returns names' ∧
                     ∀ n, n ∈ names → n ∈ names').
Proof.
  intros (c & Hc & Hsub)%reachable_defaults.
  destruct (get_categories_elem db c Hc) as (names & Hget & _ & _ & Hel).
  exists names. split_and!; [done| |].
  - intros n Hn. apply Hel, Hsub. unfold default_category_set.
    by apply elem_of_list_to_set.
  - intros cs. destruct (run_all_categories cs db c Hc) as (c' & Hc' & Hsub').
    destruct (get_categories_elem _ c' Hc') as (names' & Hget' & _ & _ & Hel').
    exists names'. split; [done|]. intros n Hn%Hel. by apply Hel', Hsub'.
Qed.

Lemma categories_only_grow_witness :
  reachable used_db ∧
  ∃ names, get_categories used_db = Returns names ∧
    (∀ n, n ∈ ["Food"; "Travel"; "Shopping"; "Bills"; "Misc"] → n ∈ names) ∧
    (∀ cs, ∃ names', get_categories (run_all cs used_db) = Returns names' ∧
                     ∀ n, n ∈ names → n ∈ names').
Proof.
  assert (Hr : reachable used_db) by (do 2 apply reachable_run; apply reachable_init).
  split; [exact Hr|]. exact (categories_only_grow used_db Hr).
Defined.

(** ** The two listings *)

(** X5. On a store that has the expenses table, [get_all_expenses] returns
    every stored expense, each as often as it is stored, latest date first:
    the date text of an earlier entry of the list is never below the date
    text of a later one. *)
Theorem get_all_expenses_sorted (db : store) (t : expenses_table) :
  expenses db = Some t →
  ∃ l, get_all_expenses db = Returns l ∧ l ≡ₚ rows t ∧
       StronglySorted (λ a b, String.leb (exp_date b) (exp_date a) = true) l.
Proof.
  intros Ht. unfold get_all_expenses. rewrite Ht. eexists. split_and!.
  - reflexivity.
  - apply merge_sort_Permutation.
  - apply (StronglySorted_merge_sort date_desc).
Qed.

Lemma get_all_expenses_sorted_witness :
  expenses demo_db = Some demo_table ∧
  ∃ l, get_all_expenses demo_db = Returns l ∧ l ≡ₚ rows demo_table ∧
       StronglySorted (λ a b, String.leb (exp_date b) (exp_date a) = true) l.
Proof.
  split; [reflexivity|]. apply (get_all_expenses_sorted demo_db demo_table). reflexivity.
Defined.

Lemma StronglySorted_strict {A} (R : relation A) (l : list A) :
  StronglySorted R l → NoDup l → StronglySorted (λ a b, R a b ∧ a ≠ b) l.
Proof.
  induction 1 as [|x l Hs IH Hall]; intros Hnd; [constructor|].
  apply NoDup_cons in Hnd as [Hx Hnd]. constructor; [by apply IH|].
  apply Forall_forall. intros y Hy. split.
  - by apply (proj1 (Forall_forall _ _) Hall).
  - intros ->. by apply Hx.
Qed.

(** X6. On a store that has the categories table, [get_categories] returns
    the stored names, each once, in strictly ascending order of their
    texts. *)
Theorem get_categories_ascending (db : store) (c : gset string) :
  categories db = Some c →
  ∃ names, get_categories db = Returns names ∧
    (∀ n, n ∈ names ↔ n ∈ c) ∧
    length names = size c ∧
    StronglySorted (λ a b, String.leb a b = true ∧ a ≠ b) names.
Proof.
  intros Hc. destruct (get_categories_elem db c Hc) as (names & Hget & Hnd & Hs & Hel).
  exists names. split_and!; [done|done| |].
  - unfold get_categories in Hget. rewrite Hc in Hget. injection Hget as <-.
    by rewrite merge_sort_Permutation.
  - by apply (StronglySorted_strict text_le).
Qed.

Lemma get_categories_ascending_witness :
  categories (initialize_db empty_db) = Some default_category_set ∧
  ∃ names, get_categories (initialize_db empty_db) = Returns names ∧
    (∀ n, n ∈ names ↔ n ∈ default_category_set) ∧
    length names = size default_category_set ∧
    StronglySorted (λ a b, String.leb a b = true ∧ a ≠ b) names.
Proof.
  split; [reflexivity|].
  apply (get_categories_ascending (initialize_db empty_db) default_category_set).
  reflexivity.
Defined.

(** ** Adding and deleting *)

Lemma filter_drop_new (t : expenses_table) (new : expense) :
  exp_id new = next_id t →
  filter (λ e, exp_id e ≠ next_id t) (rows t ++ [new])%list = rows t.
Proof.
  intros Hid. rewrite filter_app, filter_cons_False, filter_nil, app_nil_r.
  - apply filter_all. intros e He%rows_below_next_id. lia.
  - intros Hne. by apply Hne.
Qed.

(** X7. On a store that has the expenses table, after an [add_expense] that
    succeeded, [delete_expense] with the id of the new row returns [True] and
    [get_all_expenses] lists what it listed before the two calls; the other
    tables are as before, and the id is used up: the next row gets the id
    after it. *)
Theorem add_then_delete (date_str : string) (amount : Q) (category note : string)
    (db : store) (t : expenses_table) (ymd : Z * Z * Z) :
  expenses db = Some t →
  strptime date_str = Some ymd →
  (0 < amount)%Q →
  ∃ db1 db2 t2,
    add_expense date_str amount category note db = (Returns true, db1) ∧
    expenses db1 =
      Some (ExpensesTable (rows t ++ [Expense (next_id t) date_str amount category note])%list
                          (next_id t)) ∧
    delete_expense (next_id t) db1 = (Returns true, db2) ∧
    get_all_expenses db2 = get_all_expenses db ∧
    expenses db2 = Some t2 ∧ rows t2 = rows t ∧ next_id t2 = next_id t + 1 ∧
    categories db2 = categories db ∧ goals db2 = goals db ∧ settings db2 = settings db.
Proof.
  intros Ht Hp Ha.
  set (new := Expense (next_id t) date_str amount category note).
  set (t1 := insert_expense date_str amount category note t).
  exists (set_expenses t1 db), (set_expenses (delete_rows (next_id t) t1) (set_expenses t1 db)),
         (delete_rows (next_id t) t1).
  assert (Hrows : rows (delete_rows (next_id t) t1) = rows t).
  { simpl. by apply filter_drop_new. }
  split_and!; try done.
  - unfold add_expense. by rewrite Hp, Qle_bool_false, Ht.
  - unfold delete_expense. simpl. f_equal. f_equal.
    apply bool_decide_eq_true, rowcount_pos. exists new. split; [|done].
    simpl. apply elem_of_app. right. by apply list_elem_of_singleton.
  - unfold get_all_expenses. simpl. by rewrite Ht, filter_drop_new.
  - unfold next_id at 1. rewrite Hrows. simpl.
    pose proof (max_rowid_nonneg (rows t)). unfold next_id. lia.
Qed.

Lemma add_then_delete_witness :
  expenses demo_db = Some demo_table ∧
  strptime "2024-1-5" = Some (2024, 1, 5) ∧
  (0 < 7)%Q ∧
  ∃ db1 db2 t2,
    add_expense "2024-1-5" 7 "Misc" "" demo_db = (Returns true, db1) ∧
    expenses db1 =
      Some (ExpensesTable (rows demo_table ++
                             [Expense (next_id demo_table) "2024-1-5" 7 "Misc" ""])%list
                          (next_id demo_table)) ∧
    delete_expense (next_id demo_table) db1 = (Returns true, db2) ∧
    get_all_expenses db2 = get_all_expenses demo_db ∧
    expenses db2 = Some t2 ∧ rows t2 = rows demo_table ∧
    next_id t2 = next_id demo_table + 1 ∧
    categories db2 = categories demo_db ∧ goals db2 = goals demo_db ∧
    settings db2 = settings demo_db.
Proof.
  split_and!; [reflexivity | reflexivity | reflexivity |].
  apply (add_then_delete "2024-1-5" 7 "Misc" "" demo_db demo_table (2024, 1, 5));
    reflexivity.
Defined.

(** ** Totals per group *)

Section group_sum.
Context (key : expense → string).

Local Abbreviation step :=
  (λ (acc : gmap string Q) (e : expense),
     <[key e := (default 0%Q (acc !! key e) + exp_amount e)%Q]> acc).




End group_sum.

#[global] Instance total_desc_Total : Total total_desc.
Proof.
  intros a b. unfold total_desc. rewrite !Qle_bool_iff.
  destruct (Qlt_le_dec a.2 b.2) as [H%Qlt_le_weak|H]; auto.
Qed.

#[global] Instance total_desc_Transitive : Transitive total_desc.
Proof.
  intros a b c. unfold total_desc. rewrite !Qle_bool_iff. intros Hab Hbc.
  by apply Qle_trans with b.2.
Qed.

#[global] Instance amount_desc_Total : Total amount_desc.
Proof.
  intros a b. unfold amount_desc. rewrite !Qle_bool_iff.
  destruct (Qlt_le_dec (exp_amount a) (exp_amount b)) as [H%Qlt_le_weak|H]; auto.
Qed.

#[global] Instance amount_desc_Transitive : Transitive amount_desc.
Proof.
  intros a b c. unfold amount_desc. rewrite !Qle_bool_iff. intros Hab Hbc.
  by apply Qle_trans with (exp_amount b).
Qed.


(** ** The breakdown by category *)



(** The breakdown of the three sample expenses. *)
Example category_breakdown_example :
  get_category_breakdown demo_db = Returns [("Food", 0 + 10 + 4); ("Travel", 0 + 6)]%Q.
Proof. reflexivity. Qed.

(** ** The highest expense of a month *)

(** X13. On a store that has the expenses table,
    [get_highest_expense_current_month] returns nothing exactly when
    SQLite's [strftime('%Y-%m', date)] gives the current month for no stored
    date text; a date stored without its leading zeros gives NULL and counts
    in no month.  Otherwise it returns the date, amount, category and note
    of a stored expense whose date text gives the current month and whose
    amount no such expense exceeds. *)
Theorem highest_expense_of_month (current_month : string) (db : store)
    (t : expenses_table) :
  expenses db = Some t →
  ∃ r, get_highest_expense_current_month current_month db = Returns r ∧
    (r = None ↔ ∀ e, e ∈ rows t → strftime_Ym (exp_date e) ≠ Some current_month) ∧
    (∀ x, r = Some x →
       ∃ e, e ∈ rows t ∧ strftime_Ym (exp_date e) = Some current_month ∧
            x = (exp_date e, exp_amount e, exp_category e, exp_note e) ∧
            ∀ e', e' ∈ rows t → strftime_Ym (exp_date e') = Some current_month →
                  (exp_amount e' <= exp_amount e)%Q).
Proof.
  intros Ht. unfold get_highest_expense_current_month. rewrite Ht.
  eexists. split; [reflexivity|].
  pose proof (merge_sort_Permutation amount_desc
                (filter (in_month current_month) (rows t))) as Hperm.
  pose proof (StronglySorted_merge_sort amount_desc
                (filter (in_month current_month) (rows t))) as Hsorted.
  destruct (merge_sort amount_desc (filter (in_month current_month) (rows t)))
    as [|e l] eqn:Hl; simpl.
  - split.
    + split; [|done]. intros _ e He Hm.
      assert (Hin : e ∈ filter (in_month current_month) (rows t))
        by (by apply list_elem_of_filter).
      rewrite <- Hperm in Hin. by apply not_elem_of_nil in Hin.
    + intros x [=].
  - assert (He : e ∈ filter (in_month current_month) (rows t))
      by (rewrite <- Hperm; left).
    apply list_elem_of_filter in He as [Hm He]. split.
    + split; [done|]. intros Hnone. by destruct (Hnone e He).
    + intros x [= <-]. exists e. split_and!; try done.
      intros e' He' Hm'.
      assert (Hin : e' ∈ e :: l).
      { rewrite Hperm. by apply list_elem_of_filter. }
      apply elem_of_cons in Hin as [->|Hin]; [apply Qle_refl|].
      apply StronglySorted_inv in Hsorted as [_ Hall].
      apply Qle_bool_iff. by apply (proj1 (Forall_forall _ _) Hall).
Qed.

Lemma highest_expense_of_month_witness :
  expenses demo_db = Some demo_table ∧
  ∃ r, get_highest_expense_current_month "2024-01" demo_db = Returns r ∧
    (r = None ↔ ∀ e, e ∈ rows demo_table → strftime_Ym (exp_date e) ≠ Some "2024-01") ∧
    (∀ x, r = Some x →
       ∃ e, e ∈ rows demo_table ∧ strftime_Ym (exp_date e) = Some "2024-01" ∧
            x = (exp_date e, exp_amount e, exp_category e, exp_note e) ∧
            ∀ e', e' ∈ rows demo_table → strftime_Ym (exp_date e') = Some "2024-01" →
                  (exp_amount e' <= exp_amount e)%Q).
Proof.
  split; [reflexivity|].
  apply (highest_expense_of_month "2024-01" demo_db demo_table). reflexivity.
Defined.

(** The highest of January 2024 among the three sample expenses. *)
Example highest_expense_example :
  get_highest_expense_current_month "2024-01" demo_db =
    Returns (Some ("2024-01-05", 10%Q, "Food", "lunch")) ∧
  get_highest_expense_current_month "2024-03" demo_db = Returns None.
Proof. split; reflexivity. Qed.

(** ** The budget status as spending grows *)




(** ** A date range that is a month *)

Lemma compare_refl (s : string) : String.compare s s = Eq.
Proof.
  pose proof (String.compare_antisym s s) as H.
  destruct (String.compare s s); [done|discriminate H|discriminate H].
Qed.

Lemma compare_app (p q s s' : string) :
  String.length p = String.length q →
  String.compare (p ++ s) (q ++ s') =
    match String.compare p q with
    | Eq => String.compare s s'
    | c => c
    end.
Proof.
  revert q. induction p as [|a p IH]; intros [|b q] Hlen; try discriminate Hlen.
  - reflexivity.
  - change (match Ascii.compare a b with
            | Eq => String.compare (p ++ s) (q ++ s')
            | ne => ne
            end =
            match (match Ascii.compare a b with
                   | Eq => String.compare p q
                   | ne => ne
                   end) with
            | Eq => String.compare s s'
            | c => c
            end).
    destruct (Ascii.compare a b); [|done|done].
    apply IH. by injection Hlen.
Qed.

Lemma day_text_bounds (d1 d2 : ascii) :
  is_digit d1 = true → is_digit d2 = true →
  1 ≤ 10 * digit_val d1 + digit_val d2 ≤ 31 →
  String.leb "-01" (String "-" (String d1 (String d2 EmptyString))) = true ∧
  String.leb (String "-" (String d1 (String d2 EmptyString))) "-31" = true.
Proof.
  intros H1 H2 Hr. digit_split H1; digit_split H2;
    first [split; reflexivity
          | exfalso; vm_compute in Hr; destruct Hr as [Ha Hb];
            first [by apply Ha | by apply Hb]].
Qed.

(** For a date in the form YYYY-MM-DD and a text of seven characters, the
    date lies between the text followed by "-01" and the text followed by
    "-31" exactly when the text is the year-month of the date. *)
Lemma between_month (month_str date_str : string) :
  String.length month_str = 7%nat →
  iso_date date_str = true →
  (text_le (month_str ++ "-01") date_str ∧ text_le date_str (month_str ++ "-31")) ↔
  strftime_Ym date_str = Some month_str.
Proof.
  intros Hlen Hiso. rewrite (strftime_Ym_iso_date _ Hiso).
  destruct (iso_date_inv _ Hiso)
    as (y1 & y2 & y3 & y4 & m1 & m2 & d1 & d2 & -> & Hy1 & Hy2 & Hy3 & Hy4 &
        Hm1 & Hm2 & Hd1 & Hd2 & Hc).
  pose proof (check_date_fields_inv _ _ _ Hc) as (_ & _ & Hd).
  pose proof (days_in_month_le_31
                (1000 * digit_val y1 + 100 * digit_val y2 + 10 * digit_val y3 + digit_val y4)
                (10 * digit_val m1 + digit_val m2)) as H31.
  destruct (day_text_bounds d1 d2 Hd1 Hd2 ltac:(lia)) as [Hlo Hhi].
  set (p := String y1 (String y2 (String y3 (String y4 (String "-"
              (String m1 (String m2 EmptyString))))))).
  set (day := String "-" (String d1 (String d2 EmptyString))) in *.
  change (year_month _) with p.
  change (String y1 _) with (p ++ day).
  unfold text_le, String.leb.
  rewrite (compare_app month_str p "-01" day) by (by rewrite Hlen).
  rewrite (compare_app p month_str day "-31") by (by rewrite Hlen).
  rewrite (String.compare_antisym p month_str).
  unfold String.leb in Hlo, Hhi.
  destruct (String.compare month_str p) eqn:Hcmp; simpl.
  - apply String.compare_eq_iff in Hcmp as ->. tauto.
  - split; [intros [_ [=]]|]. intros [= Heq]. rewrite Heq, compare_refl in Hcmp. done.
  - split; [intros [[=] _]|]. intros [= Heq]. rewrite Heq, compare_refl in Hcmp. done.
Qed.

Lemma filter_ext_in {A} (P Q : A → Prop) `{∀ x, Decision (P x)} `{∀ x, Decision (Q x)}
    (l : list A) :
  (∀ x, x ∈ l → P x ↔ Q x) → filter P l = filter Q l.
Proof.
  induction l as [|x l IH]; intros Hext; [done|].
  rewrite !filter_cons.
  rewrite IH by (intros y Hy; apply Hext; by right).
  destruct (decide (P x)) as [HP|HP]; destruct (decide (Q x)) as [HQ|HQ]; try done.
  - destruct HQ. apply Hext; [left|done].
  - destruct HP. apply Hext; [left|done].
Qed.

(** X15. On a store that has the expenses table and whose dates are all in
    the form YYYY-MM-DD, the range from day 01 to day 31 of a month has
    exactly the expenses [get_total_expenses_for_month] adds up for that
    month, each as often as it is stored: on such dates the comparison of
    texts and the reading of SQLite agree. *)
Theorem range_of_month (month_str : string) (db : store) (t : expenses_table) :
  expenses db = Some t →
  String.length month_str = 7%nat →
  (∀ e, e ∈ rows t → iso_date (exp_date e) = true) →
  ∃ result,
    get_expenses_in_date_range (month_str ++ "-01") (month_str ++ "-31") db
    = Returns result ∧
    result ≡ₚ (λ e, (exp_date e, exp_amount e, exp_category e, exp_note e)) <$>
                filter (λ e, strftime_Ym (exp_date e) = Some month_str) (rows t).
Proof.
  intros Ht Hlen Hiso. eexists. split.
  - unfold get_expenses_in_date_range. rewrite Ht. reflexivity.
  - apply fmap_Permutation. rewrite merge_sort_Permutation.
    rewrite (filter_ext_in (between (month_str ++ "-01") (month_str ++ "-31"))
               (in_month month_str)); [done|].
    intros e He. apply between_month; [done | by apply Hiso].
Qed.

Lemma range_of_month_witness :
  expenses demo_db = Some demo_table ∧
  String.length "2024-01" = 7%nat ∧
  (∀ e, e ∈ rows demo_table → iso_date (exp_date e) = true) ∧
  ∃ result,
    get_expenses_in_date_range ("2024-01" ++ "-01") ("2024-01" ++ "-31") demo_db
    = Returns result ∧
    result ≡ₚ (λ e, (exp_date e, exp_amount e, exp_category e, exp_note e)) <$>
                filter (λ e, strftime_Ym (exp_date e) = Some "2024-01") (rows demo_table).
Proof.
  assert (Hiso : ∀ e, e ∈ rows demo_table → iso_date (exp_date e) = true).
  { intros e He. simpl in He.
    repeat (apply elem_of_cons in He as [->|He]; [reflexivity|]).
    by apply not_elem_of_nil in He. }
  split_and!; [reflexivity | reflexivity | exact Hiso |].
  exact (range_of_month "2024-01" demo_db demo_table eq_refl eq_refl Hiso).
Defined.

(** X16. On a store that has the expenses table, a range whose end is below
    its start in the order of the texts has no expense: the query returns
    the empty list and the total printed for it is 0. *)
Theorem inverted_range_is_empty (start_date end_date : string) (db : store)
    (t : expenses_table) :
  expenses db = Some t →
  String.leb start_date end_date = false →
  get_expenses_in_date_range start_date end_date db = Returns [] ∧
  view_reports_range_total start_date end_date db = Returns 0%Q.
Proof.
  intros Ht Hinv.
  assert (Hnone : filter (between start_date end_date) (rows t) = []).
  { induction (rows t) as [|e l IH]; [done|].
    rewrite filter_cons_False; [done|].
    intros [Hlo Hhi]. pose proof (text_le_trans _ _ _ Hlo Hhi) as Hle.
    unfold text_le in Hle. congruence. }
  unfold view_reports_range_total, get_expenses_in_date_range.
  rewrite Ht, Hnone. split; reflexivity.
Qed.

Lemma inverted_range_is_empty_witness :
  expenses demo_db = Some demo_table ∧
  String.leb "2024-12-31" "2024-01-01" = false ∧
  get_expenses_in_date_range "2024-12-31" "2024-01-01" demo_db = Returns [] ∧
  view_reports_range_total "2024-12-31" "2024-01-01" demo_db = Returns 0%Q.
Proof.
  split; [reflexivity|]. split; [reflexivity|].
  apply (inverted_range_is_empty "2024-12-31" "2024-01-01" demo_db demo_table);
    reflexivity.
Defined.

(** ** What a call leaves alone *)

Lemma run_frame (c : call) (db : store) :
  c ≠ InitializeDb →
  match c with
  | AddExpense _ _ _ _ | DeleteExpense _ => True
  | _ => expenses (run c db) = expenses db
  end ∧
  match c with
  | AddCategory _ => True
  | _ => categories (run c db) = categories db
  end ∧
  match c with
  | SetMonthlyGoal _ _ => True
  | _ => goals (run c db) = goals db
  end ∧
  match c with
  | UpdateSetting _ _ => True
  | _ => settings (run c db) = settings db
  end.
Proof.
  intros Hc.
  destruct c as [|key value|date_str amount category note|expense_id|name|month goal];
    [done|..]; simpl.
  - unfold update_setting. by destruct (settings db).
  - unfold add_expense. destruct (strptime date_str); [|done].
    destruct (Qle_bool amount 0); [done|]. by destruct (expenses db).
  - unfold delete_expense. by destruct (expenses db).
  - unfold add_category. destruct (is_empty (strip name)); [done|].
    destruct (categories db) as [cs|]; [|done]. by destruct (decide (name ∈ cs)).
  - unfold set_monthly_goal. by destruct (goals db).
Qed.

(** X17. Each writing function other than [initialize_db] changes at most
    its own table: only [add_expense] and [delete_expense] change the
    expenses, only [add_category] the categories, only [set_monthly_goal]
    the goals and only [update_setting] the settings, on any store. *)
Theorem run_changes_own_table (c : call) (db : store) :
  c ≠ InitializeDb →
  match c with
  | AddExpense _ _ _ _ | DeleteExpense _ => True
  | _ => expenses (run c db) = expenses db
  end ∧
  match c with
  | AddCategory _ => True
  | _ => categories (run c db) = categories db
  end ∧
  match c with
  | SetMonthlyGoal _ _ => True
  | _ => goals (run c db) = goals db
  end ∧
  match c with
  | UpdateSetting _ _ => True
  | _ => settings (run c db) = settings db
  end.
Proof. apply run_frame. Qed.

Lemma run_changes_own_table_witness :
  DeleteExpense 2 ≠ InitializeDb ∧
  categories (run (DeleteExpense 2) demo_db) = categories demo_db ∧
  goals (run (DeleteExpense 2) demo_db) = goals demo_db ∧
  settings (run (DeleteExpense 2) demo_db) = settings demo_db.
Proof.
  assert (Hc : DeleteExpense 2 ≠ InitializeDb) by discriminate.
  split; [exact Hc|].
  exact (proj2 (run_changes_own_table (DeleteExpense 2) demo_db Hc)).
Defined.

(** X18. In every state the program can reach the currency symbol has a
    value, and no call changes it except [update_setting] for that key. *)
Theorem currency_symbol_kept (db : store) :
  reachable db →
  ∃ symbol, get_setting "currency_symbol" db = Returns (Some symbol) ∧
    ∀ c, (∀ value, c ≠ UpdateSetting "currency_symbol" value) →
         get_setting "currency_symbol" (run c db) = Returns (Some symbol).
Proof.
  intros Hr. pose proof (reachable_initialized db Hr) as Hi.
  pose proof Hi as (t & cs & g & st & Hdb & Hne & [symbol Hsym]).
  assert (Hst : settings db = Some st) by (by rewrite Hdb).
  assert (Hget : ∀ db', settings db' = Some st →
                        get_setting "currency_symbol" db' = Returns (Some symbol)).
  { intros db' H. unfold get_setting. by rewrite H, Hsym. }
  exists symbol. split; [by apply Hget|].
  intros c Hc.
  destruct c as [|key value|date_str amount category note|expense_id|name|month goal].
  - simpl. rewrite (initialize_db_fixed _ Hi). by apply Hget.
  - simpl. unfold update_setting. rewrite Hst. unfold get_setting. simpl.
    rewrite lookup_insert_ne; [by rewrite Hsym|].
    intros ->. by apply (Hc value).
  - apply Hget. rewrite <- Hst.
    apply (run_frame (AddExpense date_str amount category note) db). discriminate.
  - apply Hget. rewrite <- Hst. apply (run_frame (DeleteExpense expense_id) db). discriminate.
  - apply Hget. rewrite <- Hst. apply (run_frame (AddCategory name) db). discriminate.
  - apply Hget. rewrite <- Hst. apply (run_frame (SetMonthlyGoal month goal) db). discriminate.
Qed.

Lemma currency_symbol_kept_witness :
  reachable used_db ∧
  ∃ symbol, get_setting "currency_symbol" used_db = Returns (Some symbol) ∧
    ∀ c, (∀ value, c ≠ UpdateSetting "currency_symbol" value) →
         get_setting "currency_symbol" (run c used_db) = Returns (Some symbol).
Proof.
  assert (Hr : reachable used_db) by (do 2 apply reachable_run; apply reachable_init).
  split; [exact Hr|]. exact (currency_symbol_kept used_db Hr).
Defined.

(** ** The budget status read from the store *)

Lemma filter_none {A} (P : A → Prop) `{∀ x, Decision (P x)} (l : list A) :
  (∀ x, x ∈ l → ¬ P x) → filter P l = [].
Proof.
  induction l as [|x l IH]; intros Hnone; [done|].
  rewrite filter_cons_False by (apply Hnone; left).
  apply IH. intros y Hy. apply Hnone. by right.
Qed.

(** X19. On a store that has the goals and the expenses table, for a month
    without a stored goal [update_goal_display] shows the text for no goal
    and an empty progress bar, whatever was spent; for a month with a goal
    above zero and no expense dated in it, it shows "on track" with the
    progress bar at zero. *)
Theorem goal_display_of_month (month_str : string) (db : store)
    (g : gmap string Q) (t : expenses_table) :
  goals db = Some g →
  expenses db = Some t →
  (g !! month_str = None →
     ∃ d, update_goal_display_for month_str db = Returns d ∧
          status_text d = "Set a goal to see your status." ∧
          progress_value d = 0%Q) ∧
  (∀ goal, g !! month_str = Some goal → (0 < goal)%Q →
     (∀ e, e ∈ rows t → strftime_Ym (exp_date e) ≠ Some month_str) →
     ∃ d, update_goal_display_for month_str db = Returns d ∧
          status_text d = "Status: On Track" ∧
          (progress_value d == 0)%Q).
Proof.
  intros Hg Ht. unfold update_goal_display_for, get_monthly_goal,
    get_total_expenses_for_month. rewrite Hg, Ht. split.
  - intros Hnone. rewrite Hnone. simpl. eexists. split; [reflexivity|].
    split; reflexivity.
  - intros goal Hgoal Hpos Hno. rewrite Hgoal, (filter_none _ _ Hno). simpl.
    eexists. split; [reflexivity|]. unfold update_goal_display.
    rewrite (proj2 (Qgt_bool_true goal 0) Hpos).
    assert (Hz : (0 / goal * 100 == 0)%Q) by (unfold Qdiv; lra).
    assert (Qgt_bool (0 / goal * 100) 100 = false) as ->
      by (apply Qgt_bool_false; rewrite Hz; discriminate).
    assert (Qgt_bool (0 / goal * 100) 85 = false) as ->
      by (apply Qgt_bool_false; rewrite Hz; discriminate).
    split; [reflexivity | exact Hz].
Qed.

Lemma goal_display_of_month_witness :
  goals demo_db = Some ∅ ∧
  expenses demo_db = Some demo_table ∧
  (∅ : gmap string Q) !! "2024-01" = None ∧
  ∃ d, update_goal_display_for "2024-01" demo_db = Returns d ∧
       status_text d = "Set a goal to see your status." ∧
       progress_value d = 0%Q.
Proof.
  split_and!; [reflexivity | reflexivity | reflexivity |].
  exact (proj1 (goal_display_of_month "2024-01" demo_db ∅ demo_table eq_refl eq_refl)
           eq_refl).
Defined.

(** * Properties on the values the machine holds *)

(** ** The sign of sums and quotients *)

Lemma shr_1_nonneg (mrs : shr_record) : 0 ≤ shr_m mrs → 0 ≤ shr_m (shr_1 mrs).
Proof.
  destruct mrs as [m r s]. simpl. intros Hm.
  destruct m as [|p|p]; [simpl; lia| |lia].
  destruct p; simpl; lia.
Qed.

Lemma iter_shr_1_nonneg (n : positive) (mrs : shr_record) :
  0 ≤ shr_m mrs → 0 ≤ shr_m (SpecFloat.iter_pos shr_1 n mrs).
Proof.
  revert mrs. induction n as [n IH|n IH|]; intros mrs Hm; simpl.
  - apply IH, IH, shr_1_nonneg, Hm.
  - apply IH, IH, Hm.
  - apply shr_1_nonneg, Hm.
Qed.

Lemma shr_fexp_nonneg (m e : Z) (l : location) :
  0 ≤ m → 0 ≤ shr_m (shr_fexp prec emax m e l).1.
Proof.
  intros Hm. unfold shr_fexp, shr.
  assert (Hr : 0 ≤ shr_m (shr_record_of_loc m l)) by (destruct l as [|[]]; exact Hm).
  destruct (fexp prec emax (Zdigits2 m + e) - e) as [|n|n]; simpl; try exact Hr.
  apply iter_shr_1_nonneg, Hr.
Qed.

Lemma round_nearest_even_nonneg (m : Z) (l : location) :
  0 ≤ m → 0 ≤ round_nearest_even m l.
Proof.
  intros Hm. destruct l as [|[]]; simpl; try lia. destruct (Z.even m); lia.
Qed.

Lemma binary_round_aux_sign (sx : bool) (mx ex : Z) (lx : location) :
  0 ≤ mx →
  match binary_round_aux prec emax sx mx ex lx with
  | S754_zero s | S754_infinity s | S754_finite s _ _ => s = sx
  | S754_nan => False
  end.
Proof.
  intros Hm. unfold binary_round_aux.
  pose proof (shr_fexp_nonneg mx ex lx Hm) as H1.
  destruct (shr_fexp prec emax mx ex lx) as [mrs' e']. simpl in H1.
  pose proof (shr_fexp_nonneg _ e' loc_Exact
                (round_nearest_even_nonneg _ (loc_of_shr_record mrs') H1)) as H2.
  destruct (shr_fexp prec emax _ e' loc_Exact) as [mrs'' e'']. simpl in H2.
  destruct (shr_m mrs'') as [|m|m]; [reflexivity| |lia].
  destruct (e'' <=? emax - prec); reflexivity.
Qed.

Lemma binary_round_nonneg (m : positive) (e : Z) :
  sf_nonneg (binary_round prec emax false m e).
Proof.
  unfold binary_round.
  destruct (shl_align m e _) as [mz ez].
  pose proof (binary_round_aux_sign false (Z.pos mz) ez loc_Exact ltac:(lia)) as H.
  destruct (binary_round_aux _ _ _ _ _ _); exact H.
Qed.

Lemma SFadd_nonneg (x y : spec_float) :
  sf_nonneg x → sf_nonneg y → sf_nonneg (SF64add x y).
Proof.
  destruct x as [sx|sx| |sx mx ex], y as [sy|sy| |sy my ey]; simpl;
    try contradiction; intros -> ->; try reflexivity.
  unfold SF64add, SFadd, binary_normalize, cond_Zopp.
  destruct (Z.pos _ + Z.pos _) as [|m|m] eqn:Hs; [reflexivity| |lia].
  apply binary_round_nonneg.
Qed.

Lemma add_nonneg (x y : float) : nonneg x → nonneg y → nonneg (x + y).
Proof. unfold nonneg. rewrite add_spec. apply SFadd_nonneg. Qed.

Lemma nonneg_zero : nonneg 0.
Proof. reflexivity. Qed.

Lemma ltb_0_nonneg (x : float) : (0 <? x)%float = true → nonneg x.
Proof.
  unfold nonneg. rewrite ltb_spec. change (Prim2SF 0) with (S754_zero false).
  destruct (Prim2SF x) as [[]|[]| |[] m e]; simpl; intros H; try discriminate H; reflexivity.
Qed.

Lemma nonneg_not_nan (x : float) : nonneg x → PrimFloat.is_nan x = false.
Proof.
  unfold nonneg, PrimFloat.is_nan. rewrite FloatAxioms.eqb_spec.
  destruct (Prim2SF x) as [s|s| |s m e]; simpl; try contradiction; intros ->; try reflexivity.
  unfold SFeqb, SFcompare. rewrite Z.compare_refl, Pos.compare_cont_refl. reflexivity.
Qed.

Lemma nonneg_eqb_zero (x : float) : nonneg x → (x =? 0)%float = true → x = 0%float.
Proof.
  unfold nonneg. rewrite FloatAxioms.eqb_spec. change (Prim2SF 0) with (S754_zero false).
  intros Hx Hz. apply Prim2SF_inj. change (Prim2SF 0) with (S754_zero false).
  destruct (Prim2SF x) as [s|s| |s m e]; simpl in *; try contradiction; subst; try discriminate.
  reflexivity.
Qed.

Lemma foldl_add_nonneg (l : list float) (acc : float) :
  nonneg acc → Forall nonneg l → nonneg (foldl PrimFloat.add acc l).
Proof.
  revert acc. induction l as [|a l IH]; intros acc Ha Hl; simpl; [exact Ha|].
  inversion Hl; subst. apply IH; [apply add_nonneg|]; assumption.
Qed.

(** ** A count as a binary64 value *)

Lemma digits2_pos_iter_xO (n m : positive) :
  digits2_pos (Pos.iter xO m n) = (digits2_pos m + n)%positive.
Proof.
  induction n as [|n IH] using Pos.peano_ind.
  - simpl. lia.
  - rewrite Pos.iter_succ. simpl. rewrite IH. lia.
Qed.

Lemma digits2_pos_lower (m : positive) : 2 ^ (Z.pos (digits2_pos m) - 1) ≤ Z.pos m.
Proof.
  induction m as [m IH|m IH|]; simpl digits2_pos.
  - rewrite Pos2Z.inj_succ.
    replace (Z.succ (Z.pos (digits2_pos m)) - 1) with (Z.succ (Z.pos (digits2_pos m) - 1)) by lia.
    rewrite Z.pow_succ_r by lia. lia.
  - rewrite Pos2Z.inj_succ.
    replace (Z.succ (Z.pos (digits2_pos m)) - 1) with (Z.succ (Z.pos (digits2_pos m) - 1)) by lia.
    rewrite Z.pow_succ_r by lia. lia.
  - simpl. lia.
Qed.

Lemma digits2_pos_le_53 (m : positive) : Z.pos m < 2 ^ 53 → Z.pos (digits2_pos m) ≤ 53.
Proof.
  intros Hm. pose proof (digits2_pos_lower m) as Hl.
  destruct (Z_le_gt_dec (Z.pos (digits2_pos m)) 53) as [|Hgt]; [assumption|].
  assert (2 ^ 53 ≤ 2 ^ (Z.pos (digits2_pos m) - 1)) by (apply Z.pow_le_mono_r; lia).
  lia.
Qed.

Lemma binary_round_aux_canonical (mz : positive) (ez : Z) :
  Z.pos (digits2_pos mz) = 53 → -1074 ≤ ez ≤ 971 →
  binary_round_aux prec emax false (Z.pos mz) ez loc_Exact = S754_finite false mz ez.
Proof.
  intros Hd He.
  assert (Hs : ∀ r, shr_m r = Z.pos mz → shr_r r = false → shr_s r = false →
                shr_fexp prec emax (Z.pos mz) ez loc_Exact
                = (Build_shr_record (Z.pos mz) false false, ez)).
  { intros _ _ _ _. unfold shr_fexp, fexp, SpecFloat.emin, Zdigits2. rewrite Hd.
    replace (Z.max (53 + ez - prec) (3 - emax - prec) - ez) with 0
      by (unfold prec, emax; lia).
    reflexivity. }
  unfold binary_round_aux.
  rewrite (Hs (Build_shr_record (Z.pos mz) false false)) by reflexivity.
  simpl. rewrite (Hs (Build_shr_record (Z.pos mz) false false)) by reflexivity.
  simpl. replace (ez <=? emax - prec) with true; [reflexivity|].
  symmetry. apply Z.leb_le. unfold prec, emax. lia.
Qed.

Lemma binary_normalize_small (z : Z) :
  0 < z < 2 ^ 53 →
  ∃ m e, binary_normalize prec emax z 0 false = S754_finite false m e.
Proof.
  intros Hz. destruct z as [|m|m]; try lia.
  pose proof (digits2_pos_le_53 m ltac:(lia)) as Hd.
  unfold binary_normalize, binary_round, shl_align, fexp, SpecFloat.emin.
  replace (Z.max (Z.pos (digits2_pos m) + 0 - prec) (3 - emax - prec) - 0)
    with (Z.pos (digits2_pos m) - 53) by (unfold prec, emax; lia).
  destruct (Z.pos (digits2_pos m) - 53) as [|p|p] eqn:Hp; try lia.
  - eexists _, _. apply binary_round_aux_canonical; lia.
  - eexists _, _. apply binary_round_aux_canonical.
    + rewrite digits2_pos_iter_xO. lia.
    + unfold prec, emax. lia.
Qed.


Lemma count_to_double_finite (n : nat) :
  0 < Z.of_nat n < 2 ^ 53 →
  ∃ m e, Prim2SF (F64.count_to_double n) = S754_finite false m e.
Proof.
  intros Hn. unfold F64.count_to_double. rewrite of_uint63_spec, Uint63.of_Z_spec.
  rewrite Z.mod_small.
  - apply binary_normalize_small, Hn.
  - split; [lia|]. eapply Z.lt_trans; [apply Hn|]. reflexivity.
Qed.

Lemma div_nonneg (x y : float) (m : positive) (e : Z) :
  nonneg x → Prim2SF y = S754_finite false m e → nonneg (x / y).
Proof.
  unfold nonneg. rewrite div_spec. intros Hx ->.
  destruct (Prim2SF x) as [sx|sx| |sx mx ex]; simpl in *; try contradiction; subst;
    try reflexivity.
  unfold SF64div, SFdiv, SFdiv_core_binary.
  set (m' := match _ with Z0 => Z.pos mx | Z.pos _ => _ | Z.neg _ => 0 end).
  assert (Hm' : 0 ≤ m').
  { subst m'. destruct (_ - _ - _); [lia|apply Z.shiftl_nonneg; lia|lia]. }
  pose proof (Z_div_mod m' (Z.pos m) ltac:(lia)) as Hq.
  destruct (Z.div_eucl m' (Z.pos m)) as [q r].
  assert (0 ≤ q) by nia.
  pose proof (binary_round_aux_sign false q
                (Z.min (fexp prec emax (Zdigits2 (Z.pos mx) + ex - (Zdigits2 (Z.pos m) + e))) (ex - e))
                (new_location (Z.pos m) r) ltac:(assumption)) as Hs.
  simpl. destruct (binary_round_aux _ _ _ _ _ _); exact Hs.
Qed.

Lemma positive_nonneg (x : float) : F64.positive x → nonneg x.
Proof. apply ltb_0_nonneg. Qed.

(** Above zero: not [<= 0], and a number. *)
Lemma positive_checks (x : float) :
  F64.positive x ↔ PrimFloat.leb x 0 = false ∧ PrimFloat.is_nan x = false.
Proof.
  unfold F64.positive, PrimFloat.is_nan.
  rewrite ltb_spec, leb_spec, FloatAxioms.eqb_spec.
  change (Prim2SF 0) with (S754_zero false).
  destruct (Prim2SF x) as [[]|[]| |[] m e]; simpl;
    unfold SFltb, SFleb, SFeqb, SFcompare;
    rewrite ?Z.compare_refl, ?Pos.compare_cont_refl; simpl;
    intuition congruence.
Qed.

Lemma fsum_snoc (l : list float) (a : float) :
  F64.fsum (l ++ [a]) = (F64.fsum l + a)%float.
Proof. unfold F64.fsum. by rewrite foldl_app. Qed.

Lemma fsum_nonneg (l : list float) : Forall nonneg l → nonneg (F64.fsum l).
Proof. apply foldl_add_nonneg, nonneg_zero. Qed.

Lemma sql_real_nonneg (x : float) : nonneg x → F64.sql_real x = Some x.
Proof. intros H. unfold F64.sql_real. by rewrite nonneg_not_nan. Qed.

(** On values with a clear sign bit [SUM], read with 0.0 for NULL, is the
    sum. *)
Lemma f64_sql_sum_default (l : list float) :
  Forall nonneg l → default 0%float (F64.sql_sum l) = F64.fsum l.
Proof.
  intros H. destruct l as [|a l]; [reflexivity|].
  unfold F64.sql_sum. by rewrite sql_real_nonneg by by apply fsum_nonneg.
Qed.

(** ** Row ids *)

Lemma f64_max_rowid_ge (l : list F64.expense) (e : F64.expense) :
  e ∈ l → F64.exp_id e ≤ F64.max_rowid l.
Proof.
  induction l as [|x l IH]; intros Hin.
  - by apply not_elem_of_nil in Hin.
  - apply elem_of_cons in Hin as [->|Hin]; simpl.
    + lia.
    + specialize (IH Hin). lia.
Qed.

Lemma f64_rows_below_next_id (t : F64.expenses_table) (e : F64.expense) :
  e ∈ F64.rows t → F64.exp_id e < F64.next_id t.
Proof. intros Hin. apply f64_max_rowid_ge in Hin. unfold F64.next_id. lia. Qed.

Lemma f64_rowcount_pos (expense_id : Z) (t : F64.expenses_table) :
  (0 < F64.rowcount expense_id t)%nat ↔ ∃ e, e ∈ F64.rows t ∧ F64.exp_id e = expense_id.
Proof.
  unfold F64.rowcount. split.
  - intros Hlen.
    destruct (filter (λ e, F64.exp_id e = expense_id) (F64.rows t)) as [|e l] eqn:Hf.
    + simpl in Hlen. lia.
    + exists e. assert (He : e ∈ e :: l) by left.
      rewrite <- Hf in He. apply list_elem_of_filter in He. tauto.
  - intros (e & Hin & Hid).
    assert (He : e ∈ filter (λ e, F64.exp_id e = expense_id) (F64.rows t))
      by (apply list_elem_of_filter; tauto).
    destruct (filter _ (F64.rows t)); [by apply not_elem_of_nil in He | simpl; lia].
Qed.

(** ** Deleting an expense *)




(** ** Dates in the form YYYY-MM-DD *)

Lemma f64_digit_ascii (c : ascii) (rest : string) :
  is_digit c = true → F64.digit (String c rest) = Some (String c EmptyString, rest).
Proof. intros H. digit_split H; reflexivity. Qed.

Lemma f64_re_Y_digits (y1 y2 y3 y4 : ascii) (rest : string) :
  is_digit y1 = true → is_digit y2 = true → is_digit y3 = true → is_digit y4 = true →
  F64.re_Y (String y1 (String y2 (String y3 (String y4 rest)))) =
    Some (String y1 (String y2 (String y3 (String y4 EmptyString))), rest).
Proof.
  intros H1 H2 H3 H4. unfold F64.re_Y, and_then.
  rewrite (f64_digit_ascii y1), (f64_digit_ascii y2), (f64_digit_ascii y3),
          (f64_digit_ascii y4) by done.
  reflexivity.
Qed.

Lemma f64_re_d_digits (d1 d2 : ascii) (rest : string) :
  is_digit d1 = true → is_digit d2 = true →
  1 ≤ 10 * digit_val d1 + digit_val d2 ≤ 31 →
  F64.re_d (String d1 (String d2 rest)) = Some (String d1 (String d2 EmptyString), rest).
Proof.
  intros H1 H2 Hr. digit_split H1; digit_split H2;
    first [reflexivity | exfalso; vm_compute in Hr; destruct Hr as [Ha Hb]; first [by apply Ha | by apply Hb]].
Qed.

Lemma f64_int_acc_digit (n : nat) (acc : Z) (c : ascii) (rest : string) :
  is_digit c = true →
  F64.int_acc (S n) acc (String c rest) = F64.int_acc n (10 * acc + digit_val c) rest.
Proof. intros H. digit_split H; reflexivity. Qed.

Lemma f64_int_digits2 (a b : ascii) :
  is_digit a = true → is_digit b = true →
  F64.int (String a (String b EmptyString)) = 10 * digit_val a + digit_val b.
Proof.
  intros Ha Hb. unfold F64.int. simpl String.length.
  rewrite !f64_int_acc_digit by done. simpl. lia.
Qed.

Lemma f64_int_digits4 (a b c d : ascii) :
  is_digit a = true → is_digit b = true → is_digit c = true → is_digit d = true →
  F64.int (String a (String b (String c (String d EmptyString)))) =
    1000 * digit_val a + 100 * digit_val b + 10 * digit_val c + digit_val d.
Proof.
  intros Ha Hb Hc Hd. unfold F64.int. simpl String.length.
  rewrite !f64_int_acc_digit by done. simpl. lia.
Qed.

(** The day a date in the form YYYY-MM-DD stands for. *)
Lemma f64_strptime_digits (y1 y2 y3 y4 m1 m2 d1 d2 : ascii) :
  is_digit y1 = true → is_digit y2 = true → is_digit y3 = true → is_digit y4 = true →
  is_digit m1 = true → is_digit m2 = true → is_digit d1 = true → is_digit d2 = true →
  check_date_fields
    (1000 * digit_val y1 + 100 * digit_val y2 + 10 * digit_val y3 + digit_val y4)
    (10 * digit_val m1 + digit_val m2) (10 * digit_val d1 + digit_val d2) = true →
  F64.strptime (String y1 (String y2 (String y3 (String y4 (String "-" (String m1
                 (String m2 (String "-" (String d1 (String d2 EmptyString))))))))))
  = Some (1000 * digit_val y1 + 100 * digit_val y2 + 10 * digit_val y3 + digit_val y4,
          10 * digit_val m1 + digit_val m2, 10 * digit_val d1 + digit_val d2).
Proof.
  intros Hy1 Hy2 Hy3 Hy4 Hm1 Hm2 Hd1 Hd2 Hc.
  pose proof (check_date_fields_inv _ _ _ Hc) as (Hy & Hm & Hd).
  pose proof (days_in_month_le_31
                (1000 * digit_val y1 + 100 * digit_val y2 + 10 * digit_val y3 + digit_val y4)
                (10 * digit_val m1 + digit_val m2)) as H31.
  unfold F64.strptime, F64.match_date.
  rewrite f64_re_Y_digits by done. simpl.
  rewrite re_m_digits by done. simpl.
  rewrite f64_re_d_digits by (done || lia). simpl.
  rewrite f64_int_digits4, !f64_int_digits2 by done.
  by rewrite Hc.
Qed.

(** [strptime] accepts every date in the form YYYY-MM-DD. *)
Lemma f64_strptime_iso_date (s : string) :
  iso_date s = true → ∃ ymd, F64.strptime s = Some ymd.
Proof.
  intros (y1 & y2 & y3 & y4 & m1 & m2 & d1 & d2 & -> & Hy1 & Hy2 & Hy3 & Hy4 &
          Hm1 & Hm2 & Hd1 & Hd2 & Hc)%iso_date_inv.
  eexists. by apply f64_strptime_digits.
Qed.

(** ** Adding an expense *)

Lemma positive_amounts_nonneg (l : list F64.expense) :
  Forall (λ e, F64.positive (F64.exp_amount e)) l → Forall nonneg (F64.exp_amount <$> l).
Proof.
  intros H. apply Forall_fmap. eapply Forall_impl; [exact H|].
  intros e He. by apply positive_nonneg.
Qed.

Lemma month_amounts_nonneg (month_str : string) (t : F64.expenses_table) :
  Forall (λ e, F64.positive (F64.exp_amount e)) (F64.rows t) →
  Forall nonneg (F64.month_amounts month_str t).
Proof.
  intros H. apply positive_amounts_nonneg.
  apply Forall_forall. intros e [_ Hin]%list_elem_of_filter.
  by apply (proj1 (Forall_forall _ _) H).
Qed.

(** C1, as the specification has it, fails where the sum of the total and
    the amount is not a binary64 value.  After an expense of 10^16 in March
    2024, adding an expense of 1 on a day of that month leaves the total of
    the month at 10^16: it is not larger than before.  Both amounts are
    binary64 values; their sum 10^16 + 1 is none. *)
Lemma add_expense_total_not_larger :
  let db := (F64.add_expense "2024-03-01" 1e16 "Bills" "rent"
               (F64.initialize_db F64.empty_db)).2 in
  let db' := (F64.add_expense "2024-03-02" 1 "Food" "tea" db).2 in
  iso_date "2024-03-02" = true ∧
  PrimFloat.ltb 0 1 = true ∧
  (F64.add_expense "2024-03-02" 1 "Food" "tea" db).1 = F64.Returns true ∧
  F64.get_total_expenses_for_month "2024-03" db = F64.Returns 1e16%float ∧
  F64.get_total_expenses_for_month "2024-03" db' = F64.Returns 1e16%float ∧
  PrimFloat.ltb 1e16 1e16 = false.
Proof. split_and!; reflexivity. Qed.

(** C1, amended.  For a date in the form YYYY-MM-DD that is a real calendar
    date, an amount above zero and any category and note, on a store that
    has the expenses table with amounts above zero: [add_expense] returns
    [True]; the list [get_all_expenses] gives afterwards is the list it gave
    before together with one more record, which has the four given values
    and an id no earlier record has; and [get_total_expenses_for_month] for
    the year-month of the date returns the binary64 sum of what it returned
    before and the amount. *)
Theorem add_expense_recorded_binary64 (date_str : string) (amount : float)
    (category note : string) (db : F64.store) (t : F64.expenses_table) :
  F64.expenses db = Some t →
  Forall (λ e, PrimFloat.ltb 0 (F64.exp_amount e) = true) (F64.rows t) →
  iso_date date_str = true →
  PrimFloat.ltb 0 amount = true →
  ∃ (db' : F64.store) (new : F64.expense) (before after : list F64.expense)
    (total : float),
    F64.add_expense date_str amount category note db = (F64.Returns true, db') ∧
    F64.get_all_expenses db = F64.Returns before ∧
    F64.get_all_expenses db' = F64.Returns after ∧
    new = F64.Expense (F64.exp_id new) date_str amount category note ∧
    (∀ e, e ∈ before → F64.exp_id e ≠ F64.exp_id new) ∧
    after ≡ₚ new :: before ∧
    F64.get_total_expenses_for_month (year_month date_str) db = F64.Returns total ∧
    F64.get_total_expenses_for_month (year_month date_str) db'
    = F64.Returns (total + amount)%float.
Proof.
  intros Ht Hrows Hiso Hpos.
  destruct (f64_strptime_iso_date _ Hiso) as [ymd Hparse].
  destruct (proj1 (positive_checks amount) Hpos) as [Hle Hnan].
  set (new := F64.Expense (F64.next_id t) date_str amount category note).
  exists (F64.set_expenses (F64.insert_expense date_str amount category note t) db), new,
         (merge_sort F64.date_desc (F64.rows t)),
         (merge_sort F64.date_desc (F64.rows t ++ [new])).
  eexists. split_and!.
  - unfold F64.add_expense. rewrite Hparse, Hle, Ht, Hnan. reflexivity.
  - unfold F64.get_all_expenses. by rewrite Ht.
  - reflexivity.
  - reflexivity.
  - intros e He. rewrite merge_sort_Permutation in He.
    apply f64_rows_below_next_id in He. simpl. lia.
  - rewrite !merge_sort_Permutation. by rewrite Permutation_app_comm.
  - unfold F64.get_total_expenses_for_month. rewrite Ht. reflexivity.
  - assert (Hold : Forall nonneg (F64.month_amounts (year_month date_str) t))
      by by apply month_amounts_nonneg.
    assert (Hnew : F64.month_amounts (year_month date_str)
                     (F64.insert_expense date_str amount category note t)
                   = (F64.month_amounts (year_month date_str) t ++ [amount])%list).
    { unfold F64.month_amounts, F64.insert_expense. simpl.
      rewrite filter_app, fmap_app.
      rewrite filter_cons_True
        by (unfold F64.in_month; simpl; by apply strftime_Ym_iso_date).
      reflexivity. }
    unfold F64.get_total_expenses_for_month.
    change (F64.expenses (F64.set_expenses ?t' db)) with (Some t').
    cbv beta iota. rewrite Hnew, (f64_sql_sum_default _ Hold), <- fsum_snoc.
    f_equal. apply f64_sql_sum_default.
    apply Forall_app. split; [exact Hold|].
    apply Forall_singleton. by apply positive_nonneg.
Qed.

Lemma add_expense_recorded_binary64_witness :
  F64.expenses F64.demo_db = Some F64.demo_table ∧
  Forall (λ e, PrimFloat.ltb 0 (F64.exp_amount e) = true) (F64.rows F64.demo_table) ∧
  iso_date "2024-01-15" = true ∧
  PrimFloat.ltb 0 2.5 = true ∧
  ∃ (db' : F64.store) (new : F64.expense) (before after : list F64.expense)
    (total : float),
    F64.add_expense "2024-01-15" 2.5 "Food" "snack" F64.demo_db = (F64.Returns true, db') ∧
    F64.get_all_expenses F64.demo_db = F64.Returns before ∧
    F64.get_all_expenses db' = F64.Returns after ∧
    new = F64.Expense (F64.exp_id new) "2024-01-15" 2.5 "Food" "snack" ∧
    (∀ e, e ∈ before → F64.exp_id e ≠ F64.exp_id new) ∧
    after ≡ₚ new :: before ∧
    F64.get_total_expenses_for_month (year_month "2024-01-15") F64.demo_db
    = F64.Returns total ∧
    F64.get_total_expenses_for_month (year_month "2024-01-15") db'
    = F64.Returns (total + 2.5)%float.
Proof.
  assert (Hrows : Forall (λ e, PrimFloat.ltb 0 (F64.exp_amount e) = true)
                    (F64.rows F64.demo_table))
    by (repeat constructor).
  split_and!; [reflexivity | exact Hrows | reflexivity | reflexivity |].
  apply (add_expense_recorded_binary64 "2024-01-15" 2.5 "Food" "snack"
           F64.demo_db F64.demo_table); [reflexivity | exact Hrows | reflexivity | reflexivity].
Defined.

(** ** The budget status *)






(** The examples of the specification. *)
Example budget_status_examples :
  F64.status_text (F64.update_goal_display 100 80) = "Status: On Track" ∧
  F64.status_text (F64.update_goal_display 100 90) = "Status: Nearing Budget" ∧
  F64.status_text (F64.update_goal_display 100 110) = "Status: Over Budget!" ∧
  F64.status_text (F64.update_goal_display 0 110) = "Set a goal to see your status.".
Proof. split_and!; reflexivity. Qed.

(** ** The expenses table over time *)

Lemma f64_max_rowid_app (l : list F64.expense) (e : F64.expense) :
  F64.max_rowid (l ++ [e]) = Z.max (F64.max_rowid l) (F64.exp_id e).
Proof.
  induction l as [|x l IH]; simpl.
  - lia.
  - rewrite IH. lia.
Qed.

Lemma f64_max_rowid_filter (P : F64.expense → Prop) `{∀ e, Decision (P e)}
    (l : list F64.expense) :
  F64.max_rowid (filter P l) ≤ F64.max_rowid l.
Proof.
  induction l as [|x l IH]; [done|].
  rewrite filter_cons. destruct (decide (P x)); simpl; lia.
Qed.

Lemma f64_next_id_wf (t : F64.expenses_table) :
  F64.wf_table t → F64.next_id t = F64.seq t + 1.
Proof. intros [Hmax _]. unfold F64.next_id. lia. Qed.

(** What one call does to the expenses table. *)
Lemma f64_run_expenses (c : F64.call) (db : F64.store) (t : F64.expenses_table) :
  F64.expenses db = Some t →
  F64.expenses (F64.run c db) = Some t ∨
  (∃ date_str amount category note ymd,
     c = F64.AddExpense date_str amount category note ∧
     F64.strptime date_str = Some ymd ∧ F64.positive amount ∧
     F64.expenses (F64.run c db)
     = Some (F64.insert_expense date_str amount category note t)) ∨
  (∃ expense_id,
     c = F64.DeleteExpense expense_id ∧
     F64.expenses (F64.run c db) = Some (F64.delete_rows expense_id t)).
Proof.
  intros Ht.
  destruct c as [|key value|date_str amount category note|expense_id|name|month goal];
    simpl.
  - left. unfold F64.initialize_db. by rewrite Ht.
  - left. unfold F64.update_setting. by destruct (F64.settings db).
  - unfold F64.add_expense. destruct (F64.strptime date_str) as [ymd|] eqn:Hp; [|by left].
    destruct (PrimFloat.leb amount 0) eqn:Hle; [by left|].
    rewrite Ht. destruct (PrimFloat.is_nan amount) eqn:Hnan; [by left|].
    right. left. exists date_str, amount, category, note, ymd.
    split_and!; try done. by apply positive_checks.
  - unfold F64.delete_expense. rewrite Ht.
    destruct (F64.int64 expense_id); [|by left].
    right. right. by exists expense_id.
  - left. unfold F64.add_category. destruct (is_empty (strip name)); [done|].
    destruct (F64.categories db) as [g|]; [|done]. by destruct (decide (name ∈ g)).
  - left. unfold F64.set_monthly_goal. destruct (F64.goals db); [|done].
    by destruct (F64.stored_real goal).
Qed.

Lemma f64_insert_expense_valid (date_str : string) (amount : float)
    (category note : string) (t : F64.expenses_table) :
  F64.positive amount → F64.valid_table t →
  F64.valid_table (F64.insert_expense date_str amount category note t).
Proof.
  intros Ha [[Hmax Hnd] Hval]. split; [split|]; simpl.
  - rewrite f64_max_rowid_app. simpl. unfold F64.next_id. lia.
  - rewrite fmap_app. simpl. apply NoDup_app. split_and!; [done| |apply NoDup_singleton].
    intros i (e & -> & Hin%f64_rows_below_next_id)%list_elem_of_fmap
      Hi%list_elem_of_singleton.
    lia.
  - apply Forall_app. split; [done|]. by apply Forall_singleton.
Qed.

Lemma f64_delete_rows_valid (expense_id : Z) (t : F64.expenses_table) :
  F64.valid_table t → F64.valid_table (F64.delete_rows expense_id t).
Proof.
  intros [[Hmax Hnd] Hval]. split; [split|]; simpl.
  - etrans; [apply f64_max_rowid_filter|done].
  - by apply NoDup_fmap_filter.
  - apply Forall_forall. intros e [_ Hin]%list_elem_of_filter.
    by apply (proj1 (Forall_forall _ _) Hval).
Qed.

Lemma f64_reachable_valid (db : F64.store) :
  F64.reachable db → ∃ t, F64.expenses db = Some t ∧ F64.valid_table t.
Proof.
  induction 1 as [|c db _ (t & Ht & Hv)].
  - eexists. split; [reflexivity|]. split; [split|]; simpl.
    + lia.
    + apply NoDup_nil_2.
    + constructor.
  - destruct (f64_run_expenses c db t Ht)
      as [H|[(d & a & cat & n & ymd & _ & Hp & Ha & H)|(i & _ & H)]];
      rewrite H; eexists; (split; [reflexivity|]).
    + done.
    + by apply f64_insert_expense_valid.
    + by apply f64_delete_rows_valid.
Qed.

(** One call: the rows it keeps, drops and adds. *)
Lemma f64_run_rows (c : F64.call) (db : F64.store) (t : F64.expenses_table) :
  F64.expenses db = Some t → F64.valid_table t →
  ∃ t', F64.expenses (F64.run c db) = Some t' ∧ F64.valid_table t' ∧
    F64.next_id t ≤ F64.next_id t' ∧
    (∀ e, e ∈ F64.rows t → e ∈ F64.rows t' ∨ c = F64.DeleteExpense (F64.exp_id e)) ∧
    (∀ e', e' ∈ F64.rows t' →
       e' ∈ F64.rows t ∨
       ∃ date_str amount category note,
         c = F64.AddExpense date_str amount category note ∧
         e' = F64.Expense (F64.next_id t) date_str amount category note).
Proof.
  intros Ht Hv.
  destruct (f64_run_expenses c db t Ht)
    as [H|[(d & a & cat & n & ymd & -> & Hp & Ha & H)|(i & -> & H)]];
    rewrite H; eexists; (split; [reflexivity|]).
  - split_and!; [done|lia|auto|auto].
  - split_and!.
    + by apply f64_insert_expense_valid.
    + unfold F64.next_id at 2. simpl. lia.
    + intros e Hin. left. simpl. apply elem_of_app. by left.
    + intros e' [Hin|Heq%list_elem_of_singleton]%elem_of_app; [by left|].
      right. by exists d, a, cat, n.
  - pose proof (f64_delete_rows_valid i t Hv) as Hv'. split_and!.
    + done.
    + rewrite (f64_next_id_wf t), (f64_next_id_wf (F64.delete_rows i t))
        by apply Hv || apply Hv'.
      simpl. lia.
    + intros e Hin. destruct (decide (F64.exp_id e = i)) as [<-|Hne]; [by right|].
      left. simpl. by apply list_elem_of_filter.
    + intros e' [_ Hin]%list_elem_of_filter. by left.
Qed.

(** Any number of calls: a row that is stored afterwards under an id that
    had been given out already is a row that was stored before. *)
Lemma f64_run_all_rows (cs : list F64.call) (db : F64.store) (t : F64.expenses_table) :
  F64.expenses db = Some t → F64.valid_table t →
  ∃ t', F64.expenses (F64.run_all cs db) = Some t' ∧ F64.valid_table t' ∧
    F64.next_id t ≤ F64.next_id t' ∧
    ∀ e', e' ∈ F64.rows t' → F64.exp_id e' < F64.next_id t → e' ∈ F64.rows t.
Proof.
  revert db t. induction cs as [|c cs IH]; intros db t Ht Hv; simpl.
  - exists t. split_and!; [done|done|lia|auto].
  - destruct (f64_run_rows c db t Ht Hv) as (t1 & Ht1 & Hv1 & Hn1 & _ & Hnew).
    destruct (IH (F64.run c db) t1 Ht1 Hv1) as (t' & Ht' & Hv' & Hn' & Hold).
    exists t'. split_and!; [done|done|lia|].
    intros e' Hin Hid.
    destruct (Hnew e' (Hold e' Hin ltac:(lia)))
      as [?|(d & a & cat & n & _ & ->)]; [done|].
    simpl in Hid. lia.
Qed.

Lemma f64_demo_db_reachable : F64.reachable F64.demo_db.
Proof.
  exact (F64.reachable_run (F64.AddExpense "2024-02-01" 6 "Travel" "bus") _
           (F64.reachable_run (F64.AddExpense "2024-01-31" 4 "Food" "tea") _
              (F64.reachable_run (F64.AddExpense "2024-01-05" 10 "Food" "lunch") _
                 F64.reachable_init))).
Defined.

(** C9, at the calls [add_expense("2024-1-5", 10.0, "Food", "lunch")],
    [add_expense("2024-01- 5", 4.0, "Food", "tea")] and [add_expense] with
    the year of 2024-01-05 in full-width digits, on a freshly initialised
    store.  [strptime] parses the three texts, so the calls write their
    rows: the program has reached a state whose stored dates are a date
    without the leading zeros, a date with a blank in the day and a date
    SQLite reads no digits from.  None is a date in the form YYYY-MM-DD, and
    SQLite's [strftime] reads no month from any of them. *)
Theorem stored_date_not_a_calendar_date :
  let db := F64.run (F64.AddExpense "２０２４-01-05" 6 "Travel" "bus")
              (F64.run (F64.AddExpense "2024-01- 5" 4 "Food" "tea")
                 (F64.run (F64.AddExpense "2024-1-5" 10 "Food" "lunch")
                    (F64.initialize_db F64.empty_db))) in
  F64.reachable db ∧
  F64.get_all_expenses (F64.run (F64.AddExpense "2024-1-5" 10 "Food" "lunch")
                          (F64.initialize_db F64.empty_db))
  = F64.Returns [F64.Expense 1 "2024-1-5" 10 "Food" "lunch"] ∧
  F64.rows <$> F64.expenses db
  = Some [F64.Expense 1 "2024-1-5" 10 "Food" "lunch";
          F64.Expense 2 "2024-01- 5" 4 "Food" "tea";
          F64.Expense 3 "２０２４-01-05" 6 "Travel" "bus"] ∧
  iso_date "2024-1-5" = false ∧ iso_date "2024-01- 5" = false ∧
  iso_date "２０２４-01-05" = false ∧
  strftime_Ym "2024-1-5" = None ∧ strftime_Ym "2024-01- 5" = None ∧
  strftime_Ym "２０２４-01-05" = None.
Proof.
  split_and!; try reflexivity.
  do 3 apply F64.reachable_run. apply F64.reachable_init.
Qed.

(** X20. In every state the program can reach, every stored expense has an
    amount above zero and the ids tell the expenses apart.  A call keeps
    every stored expense as it is, unless it is [delete_expense] with the id
    of that expense, and the only expense it can add is the one of
    [add_expense], under an id not used before.  After any number of calls,
    an expense stored under an id of a former expense is that expense,
    unchanged, and an id whose expense was deleted stays without one. *)
Theorem expenses_positive_and_immutable (db : F64.store) :
  F64.reachable db →
  ∃ t, F64.expenses db = Some t ∧
    (∀ e, e ∈ F64.rows t → PrimFloat.ltb 0 (F64.exp_amount e) = true) ∧
    NoDup (F64.exp_id <$> F64.rows t) ∧
    (∀ c, ∃ t', F64.expenses (F64.run c db) = Some t' ∧
       (∀ e, e ∈ F64.rows t → e ∈ F64.rows t' ∨ c = F64.DeleteExpense (F64.exp_id e)) ∧
       (∀ e', e' ∈ F64.rows t' →
          e' ∈ F64.rows t ∨
          (∀ e, e ∈ F64.rows t → F64.exp_id e ≠ F64.exp_id e') ∧
          ∃ date_str amount category note,
            c = F64.AddExpense date_str amount category note ∧
            e' = F64.Expense (F64.exp_id e') date_str amount category note)) ∧
    (∀ cs, ∃ t', F64.expenses (F64.run_all cs db) = Some t' ∧
       (∀ e e', e ∈ F64.rows t → e' ∈ F64.rows t' →
                F64.exp_id e' = F64.exp_id e → e' = e) ∧
       (∀ e e', e ∈ F64.rows t → e ∉ F64.rows t' → e' ∈ F64.rows t' →
                F64.exp_id e' ≠ F64.exp_id e)).
Proof.
  intros (t & Ht & Hv)%f64_reachable_valid. exists t.
  pose proof Hv as [[Hmax Hnd] Hval].
  assert (Hsame : ∀ e e', e ∈ F64.rows t → e' ∈ F64.rows t →
                          F64.exp_id e' = F64.exp_id e → e' = e).
  { intros e e' Hin Hin' Hid.
    apply list_elem_of_lookup in Hin as [i Hi]. apply list_elem_of_lookup in Hin' as [j Hj].
    assert (i = j) as ->; [|congruence].
    apply (NoDup_lookup (F64.exp_id <$> F64.rows t) i j (F64.exp_id e)); [done| |].
    - by rewrite list_lookup_fmap, Hi.
    - by rewrite list_lookup_fmap, Hj, <- Hid. }
  split_and!; [done| |done| |].
  - intros e He. by apply (proj1 (Forall_forall _ _) Hval).
  - intros c. destruct (f64_run_rows c db t Ht Hv) as (t' & Ht' & _ & _ & Hkeep & Hnew).
    exists t'. split_and!; [done|done|].
    intros e' Hin. destruct (Hnew e' Hin) as [?|(d & a & cat & n & -> & ->)]; [by left|].
    right. split; [|by exists d, a, cat, n].
    intros e He%f64_rows_below_next_id. simpl. lia.
  - intros cs. destruct (f64_run_all_rows cs db t Ht Hv) as (t' & Ht' & _ & _ & Hold).
    exists t'. split_and!; [done| |].
    + intros e e' Hin Hin' Hid. apply Hsame; [done| |done].
      apply Hold; [done|]. rewrite Hid. by apply f64_rows_below_next_id.
    + intros e e' Hin Hgone Hin' Hid. apply Hgone.
      assert (He' : e' ∈ F64.rows t).
      { apply Hold; [done|]. rewrite Hid. by apply f64_rows_below_next_id. }
      by rewrite <- (Hsame e e' Hin He' Hid).
Qed.

Lemma expenses_positive_and_immutable_witness :
  F64.reachable F64.demo_db ∧
  ∃ t, F64.expenses F64.demo_db = Some t ∧
    (∀ e, e ∈ F64.rows t → PrimFloat.ltb 0 (F64.exp_amount e) = true) ∧
    NoDup (F64.exp_id <$> F64.rows t).
Proof.
  split; [exact f64_demo_db_reachable|].
  destruct (expenses_positive_and_immutable F64.demo_db f64_demo_db_reachable)
    as (t & Ht & Hpos & Hnd & _).
  exists t. by split_and!.
Defined.

(** ** The average daily expense *)

Lemma ascii_compare_spec (c d : ascii) :
  CompareSpec (c = d) (code c < code d) (code d < code c) (Ascii.compare c d).
Proof.
  unfold Ascii.compare, code.
  destruct (N.compare_spec (N_of_ascii c) (N_of_ascii d)) as [H|H|H]; constructor.
  - apply code_inj. unfold code. by rewrite H.
  - lia.
  - lia.
Qed.

Ltac compare_chars :=
  repeat match goal with
         | |- context [Ascii.compare ?a ?b] =>
             destruct (ascii_compare_spec a b) as [->|?|?]; cbv iota
         end.

Lemma iso_day_digits (y1 y2 y3 y4 m1 m2 d1 d2 : ascii) :
  is_digit y1 = true → is_digit y2 = true → is_digit y3 = true → is_digit y4 = true →
  is_digit m1 = true → is_digit m2 = true → is_digit d1 = true → is_digit d2 = true →
  check_date_fields
    (1000 * digit_val y1 + 100 * digit_val y2 + 10 * digit_val y3 + digit_val y4)
    (10 * digit_val m1 + digit_val m2) (10 * digit_val d1 + digit_val d2) = true →
  F64.iso_day (String y1 (String y2 (String y3 (String y4 (String "-" (String m1
                 (String m2 (String "-" (String d1 (String d2 EmptyString))))))))))
  = Some (1000 * digit_val y1 + 100 * digit_val y2 + 10 * digit_val y3 + digit_val y4,
          10 * digit_val m1 + digit_val m2, 10 * digit_val d1 + digit_val d2).
Proof.
  intros Hy1 Hy2 Hy3 Hy4 Hm1 Hm2 Hd1 Hd2 Hc. unfold F64.iso_day.
  rewrite Hy1, Hy2, Hy3, Hy4, Hm1, Hm2, Hd1, Hd2. cbv zeta. by rewrite Hc.
Qed.

(** A text in the form YYYY-MM-DD stands for a day, the one [strptime]
    reads. *)
Lemma iso_day_iso_date (s : string) :
  iso_date s = true → ∃ d, F64.iso_day s = Some d ∧ F64.strptime s = Some d.
Proof.
  intros (y1 & y2 & y3 & y4 & m1 & m2 & d1 & d2 & -> & Hy1 & Hy2 & Hy3 & Hy4 &
          Hm1 & Hm2 & Hd1 & Hd2 & Hc)%iso_date_inv.
  eexists. split; [by apply iso_day_digits | by apply f64_strptime_digits].
Qed.

(** On dates in the form YYYY-MM-DD the order of the texts is the order of
    the calendar. *)
Lemma iso_date_day_lt (s1 s2 : string) (d1 d2 : F64.day) :
  iso_date s1 = true → iso_date s2 = true →
  F64.iso_day s1 = Some d1 → F64.iso_day s2 = Some d2 →
  text_le s1 s2 → s1 ≠ s2 → F64.day_lt d1 d2.
Proof.
  intros (y1 & y2 & y3 & y4 & m1 & m2 & n1 & n2 & -> & Hy1 & Hy2 & Hy3 & Hy4 &
          Hm1 & Hm2 & Hn1 & Hn2 & Hc)%iso_date_inv
         (z1 & z2 & z3 & z4 & k1 & k2 & j1 & j2 & -> & Hz1 & Hz2 & Hz3 & Hz4 &
          Hk1 & Hk2 & Hj1 & Hj2 & Hc')%iso_date_inv.
  rewrite !iso_day_digits by done. intros [= <-] [= <-].
  clear Hc Hc'.
  apply digit_val_range in Hy1, Hy2, Hy3, Hy4, Hm1, Hm2, Hn1, Hn2,
                           Hz1, Hz2, Hz3, Hz4, Hk1, Hk2, Hj1, Hj2.
  unfold text_le, String.leb. cbn [String.compare].
  change (Ascii.compare "-" "-") with Eq. cbv iota.
  unfold F64.day_lt, digit_val in *. cbn [fst snd].
  compare_chars; intros Hle Hne;
    first [discriminate Hle | by destruct Hne | lia].
Qed.

Lemma iso_date_day_inj (s1 s2 : string) (d : F64.day) :
  iso_date s1 = true → iso_date s2 = true →
  F64.iso_day s1 = Some d → F64.iso_day s2 = Some d → s1 = s2.
Proof.
  intros H1 H2 Hd1 Hd2. destruct (decide (s1 = s2)) as [|Hne]; [done|].
  exfalso. destruct (text_le_total s1 s2) as [Hle|Hle].
  - pose proof (iso_date_day_lt s1 s2 d d H1 H2 Hd1 Hd2 Hle Hne) as Hlt.
    unfold F64.day_lt in Hlt. lia.
  - pose proof (iso_date_day_lt s2 s1 d d H2 H1 Hd2 Hd1 Hle (not_eq_sym Hne)) as Hlt.
    unfold F64.day_lt in Hlt. lia.
Qed.

(** The days of texts that are sorted and distinct are in the order of the
    calendar. *)
Lemma sorted_days (ks : list string) :
  Forall (λ k, iso_date k = true) ks → NoDup ks → StronglySorted text_le ks →
  StronglySorted F64.day_lt (omap F64.iso_day ks) ∧
  length (omap F64.iso_day ks) = length ks.
Proof.
  induction ks as [|k ks IH]; intros Hiso Hnd Hs.
  - split; [constructor|done].
  - apply Forall_cons in Hiso as [Hk Hiso]. apply NoDup_cons in Hnd as [Hnk Hnd].
    apply StronglySorted_inv in Hs as [Hs Hall].
    destruct (IH Hiso Hnd Hs) as [IHs IHl].
    destruct (iso_day_iso_date k Hk) as (d & Hd & _).
    cbn [omap list_omap]. rewrite Hd. split; [|simpl; by rewrite IHl].
    constructor; [done|].
    apply Forall_forall. intros d' (k' & Hin & Hd')%list_elem_of_omap.
    apply (iso_date_day_lt k k'); try done.
    + by apply (proj1 (Forall_forall _ _) Hiso).
    + by apply (proj1 (Forall_forall _ _) Hall).
    + intros ->. by apply Hnk.
Qed.

Lemma sql_sum_nonneg (l : list float) :
  l ≠ [] → Forall nonneg l → F64.sql_sum l = Some (F64.fsum l).
Proof.
  intros Hne H. destruct l as [|a l]; [done|].
  unfold F64.sql_sum. by rewrite sql_real_nonneg by by apply fsum_nonneg.
Qed.

(** On dates in the form YYYY-MM-DD the group of a date text is the day it
    stands for. *)
Lemma group_amounts_day (l : list F64.expense) (k : string) (d : F64.day) :
  F64.padded l → iso_date k = true → F64.iso_day k = Some d →
  F64.fsum (F64.group_amounts k l) = F64.day_sum l d.
Proof.
  intros Hl Hk Hd. unfold F64.group_amounts, F64.day_sum, F64.fsum. do 2 f_equal.
  apply filter_ext_in. intros e He. unfold F64.day_of. split.
  - by intros ->.
  - intros He'. apply (iso_date_day_inj _ _ d); try done.
    by apply (proj1 (Forall_forall _ _) Hl).
Qed.

Lemma daily_totals_days (l : list F64.expense) (ks : list string) :
  F64.padded l →
  Forall (λ e, F64.positive (F64.exp_amount e)) l →
  (∀ k, k ∈ ks → k ∈ F64.exp_date <$> l) →
  omap (λ date, F64.sql_sum (F64.group_amounts date l)) ks
  = F64.day_sum l <$> omap F64.iso_day ks.
Proof.
  intros Hl Hpos. induction ks as [|k ks IH]; intros Hin; [done|].
  destruct (proj1 (list_elem_of_fmap _ _ _) (Hin k ltac:(left))) as (e & -> & He).
  pose proof (proj1 (Forall_forall _ _) Hl e He) as Hk. cbv beta in Hk.
  destruct (iso_day_iso_date _ Hk) as (d & Hd & _).
  cbn [omap list_omap]. rewrite Hd.
  rewrite sql_sum_nonneg.
  - rewrite fmap_cons, IH by (intros k' Hk'; apply Hin; by right).
    f_equal. by apply group_amounts_day.
  - unfold F64.group_amounts. intros Hnil.
    assert (Hin' : e ∈ filter (λ e', F64.exp_date e' = F64.exp_date e) l)
      by (by apply list_elem_of_filter).
    destruct (filter _ l); [by apply not_elem_of_nil in Hin'|done].
  - unfold F64.group_amounts. apply positive_amounts_nonneg.
    apply Forall_forall. intros e' [_ He']%list_elem_of_filter.
    by apply (proj1 (Forall_forall _ _) Hpos).
Qed.

Lemma day_sum_nonneg (l : list F64.expense) (d : F64.day) :
  Forall (λ e, F64.positive (F64.exp_amount e)) l → nonneg (F64.day_sum l d).
Proof.
  intros Hpos. unfold F64.day_sum. apply (fsum_nonneg _), positive_amounts_nonneg.
  apply Forall_forall. intros e [_ He]%list_elem_of_filter.
  by apply (proj1 (Forall_forall _ _) Hpos).
Qed.

Lemma remove_dups_length_le {A} `{EqDecision A} (l : list A) :
  (length (remove_dups l) ≤ length l)%nat.
Proof.
  induction l as [|x l IH]; simpl; [done|].
  destruct (decide_rel elem_of x l); simpl; lia.
Qed.

(** [AVG] and [average if average else 0.0] on sums that are not negative:
    their mean. *)
Lemma sql_avg_mean (sums : list float) :
  Forall nonneg sums → Z.of_nat (length sums) < 2 ^ 53 →
  match F64.sql_avg sums with
  | Some average => if PrimFloat.eqb average 0 then 0%float else average
  | None => 0%float
  end = F64.mean sums.
Proof.
  intros Hs Hlen. destruct sums as [|a sums]; [done|].
  unfold F64.sql_avg, F64.mean.
  change (PrimFloat.of_uint63 (Uint63.of_Z (Z.of_nat (length (a :: sums)))))
    with (F64.count_to_double (length (a :: sums))).
  change (foldl PrimFloat.add 0%float (a :: sums)) with (F64.fsum (a :: sums)).
  destruct (count_to_double_finite (length (a :: sums))) as (m & e & Hc).
  { split; [simpl; lia|done]. }
  assert (Hq : nonneg (F64.fsum (a :: sums) / F64.count_to_double (length (a :: sums))))
    by (eapply div_nonneg; [by apply fsum_nonneg|exact Hc]).
  rewrite sql_real_nonneg by done.
  destruct (PrimFloat.eqb _ 0) eqn:Hz; [|done].
  symmetry. by apply nonneg_eqb_zero.
Qed.

(** C5, as the specification has it, fails where a sum or the quotient is
    not a binary64 value.  With 10^16 on one day and 1 on each of two other
    days the mean of the sums of the three days is 3333333333333334, a
    binary64 value, and [get_average_daily_expense] returns
    3333333333333333.5. *)
Lemma average_daily_rounded :
  F64.rows <$> F64.expenses F64.large_db
  = Some [F64.Expense 1 "2024-03-01" 1e16 "Bills" "";
          F64.Expense 2 "2024-03-02" 1 "Food" "";
          F64.Expense 3 "2024-03-03" 1 "Food" ""] ∧
  F64.get_average_daily_expense F64.large_db = F64.Returns 3333333333333333.5%float ∧
  ∃ a b average : Q,
    F64.exact 1e16 = Some a ∧ F64.exact 1 = Some b ∧
    F64.exact 3333333333333333.5 = Some average ∧
    ((a + b + b) / 3 == 3333333333333334)%Q ∧
    ¬ (average == (a + b + b) / 3)%Q.
Proof.
  split_and!; [reflexivity | reflexivity |].
  eexists _, _, _. split_and!; [reflexivity | reflexivity | reflexivity | by vm_compute
                              | by vm_compute].
Qed.

(** C5, amended.  On a store that has the expenses table, with fewer than
    2^53 expenses, all with a date in the form YYYY-MM-DD and an amount
    above zero, [get_average_daily_expense] returns the mean of the per-day
    sums in binary64 arithmetic, taken over exactly the days that have at
    least one expense: each day's sum adds the amounts of the day in the
    order they were stored, and the mean adds these sums in the order of the
    calendar and divides by the number of days.  It returns zero when there
    is no expense. *)
Theorem average_daily_binary64 (db : F64.store) (t : F64.expenses_table) :
  F64.expenses db = Some t →
  Forall (λ e, iso_date (F64.exp_date e) = true) (F64.rows t) →
  Forall (λ e, PrimFloat.ltb 0 (F64.exp_amount e) = true) (F64.rows t) →
  Z.of_nat (length (F64.rows t)) < 2 ^ 53 →
  ∃ days : list F64.day,
    StronglySorted F64.day_lt days ∧
    (∀ d, d ∈ days ↔ ∃ e, e ∈ F64.rows t ∧ F64.day_of e = Some d) ∧
    F64.get_average_daily_expense db
    = F64.Returns (F64.mean (F64.day_sum (F64.rows t) <$> days)) ∧
    (F64.rows t = [] → F64.get_average_daily_expense db = F64.Returns 0%float).
Proof.
  intros Ht Hiso Hpos Hlen.
  set (l := F64.rows t) in *.
  pose proof (merge_sort_Permutation text_le (remove_dups (F64.exp_date <$> l))) as Hperm.
  fold (F64.group_keys l) in Hperm.
  assert (Hkeys : ∀ k, k ∈ F64.group_keys l ↔ k ∈ F64.exp_date <$> l).
  { intros k. by rewrite Hperm, elem_of_remove_dups. }
  assert (Hkiso : Forall (λ k, iso_date k = true) (F64.group_keys l)).
  { apply Forall_forall. intros k (e & -> & He)%Hkeys%list_elem_of_fmap.
    by apply (proj1 (Forall_forall _ _) Hiso). }
  assert (Hnd : NoDup (F64.group_keys l)).
  { rewrite Hperm. apply NoDup_remove_dups. }
  destruct (sorted_days (F64.group_keys l) Hkiso Hnd) as [Hsorted Hdays].
  { apply StronglySorted_merge_sort; apply _. }
  exists (omap F64.iso_day (F64.group_keys l)).
  assert (Havg : F64.get_average_daily_expense db
                 = F64.Returns (F64.mean (F64.day_sum l <$>
                                           omap F64.iso_day (F64.group_keys l)))).
  { unfold F64.get_average_daily_expense. rewrite Ht. fold l. f_equal.
    unfold F64.daily_totals.
    rewrite (daily_totals_days l (F64.group_keys l)) by (done || apply Hkeys).
    apply sql_avg_mean.
    - apply Forall_fmap, Forall_forall. intros d _. by apply day_sum_nonneg.
    - rewrite length_fmap.
      apply Z.le_lt_trans with (Z.of_nat (length l)); [|exact Hlen].
      apply Nat2Z.inj_le.
      transitivity (length (F64.group_keys l)); [apply Nat.eq_le_incl; exact Hdays|].
      transitivity (length (remove_dups (F64.exp_date <$> l)));
        [apply Nat.eq_le_incl, Permutation_length, Hperm|].
      transitivity (length (F64.exp_date <$> l)); [apply remove_dups_length_le|].
      by rewrite length_fmap. }
  split_and!.
  - exact Hsorted.
  - intros d. rewrite list_elem_of_omap. split.
    + intros (k & (e & -> & He)%Hkeys%list_elem_of_fmap & Hd). by exists e.
    + intros (e & He & Hd). exists (F64.exp_date e). split; [|done].
      apply Hkeys. by apply list_elem_of_fmap_2.
  - exact Havg.
  - intros Hnil. rewrite Havg, Hnil. reflexivity.
Qed.

Lemma average_daily_binary64_witness :
  F64.expenses F64.average_db = Some F64.average_table ∧
  Forall (λ e, iso_date (F64.exp_date e) = true) (F64.rows F64.average_table) ∧
  Forall (λ e, PrimFloat.ltb 0 (F64.exp_amount e) = true) (F64.rows F64.average_table) ∧
  Z.of_nat (length (F64.rows F64.average_table)) < 2 ^ 53 ∧
  ∃ days : list F64.day,
    StronglySorted F64.day_lt days ∧
    (∀ d, d ∈ days ↔ ∃ e, e ∈ F64.rows F64.average_table ∧ F64.day_of e = Some d) ∧
    F64.get_average_daily_expense F64.average_db
    = F64.Returns (F64.mean (F64.day_sum (F64.rows F64.average_table) <$> days)) ∧
    (F64.rows F64.average_table = [] →
     F64.get_average_daily_expense F64.average_db = F64.Returns 0%float).
Proof.
  assert (Hiso : Forall (λ e, iso_date (F64.exp_date e) = true)
                   (F64.rows F64.average_table)) by (repeat constructor).
  assert (Hpos : Forall (λ e, PrimFloat.ltb 0 (F64.exp_amount e) = true)
                   (F64.rows F64.average_table)) by (repeat constructor).
  assert (Hlen : Z.of_nat (length (F64.rows F64.average_table)) < 2 ^ 53) by reflexivity.
  split_and!; [reflexivity | exact Hiso | exact Hpos | exact Hlen |].
  exact (average_daily_binary64 F64.average_db F64.average_table eq_refl Hiso Hpos Hlen).
Defined.

(** The example of the specification: (10 + 10) / 2, not (10 + 4 + 6) / 3. *)
Example average_daily_binary64_example :
  F64.get_average_daily_expense F64.average_db = F64.Returns 10%float ∧
  ((10 + (4 + 6)) / 2 = 10)%float ∧ ((10 + 4 + 6) / 3 ≠ 10)%float.
Proof. split_and!; [reflexivity | reflexivity | by vm_compute]. Qed.

(** ** Calls that return and calls that raise *)





(** ** Deleting twice *)

(** X8. On a store that has the expenses table and for an id in the signed
    64-bit range, deleting the same id a second time returns [False] and
    changes nothing, whether or not the first call found a row. *)
Theorem delete_expense_twice_int64 (expense_id : Z) (db : F64.store)
    (t : F64.expenses_table) :
  F64.expenses db = Some t →
  - 2 ^ 63 ≤ expense_id ≤ 2 ^ 63 - 1 →
  ∃ b db1, F64.delete_expense expense_id db = (F64.Returns b, db1) ∧
           F64.delete_expense expense_id db1 = (F64.Returns false, db1).
Proof.
  intros Ht Hr.
  assert (Hi : F64.int64 expense_id = true).
  { unfold F64.int64. apply andb_true_intro. split; apply Z.leb_le; lia. }
  eexists _, _. split.
  - unfold F64.delete_expense. rewrite Ht, Hi. reflexivity.
  - unfold F64.delete_expense. simpl. rewrite Hi. f_equal.
    + f_equal. apply bool_decide_eq_false. rewrite f64_rowcount_pos.
      intros (e & [Hne _]%list_elem_of_filter & Hid). by apply Hne.
    + unfold F64.set_expenses, F64.delete_rows. simpl. do 3 f_equal.
      apply filter_all. by intros e [Hne _]%list_elem_of_filter.
Qed.

Lemma delete_expense_twice_int64_witness :
  F64.expenses F64.demo_db = Some F64.demo_table ∧
  ∃ b db1, F64.delete_expense 2 F64.demo_db = (F64.Returns b, db1) ∧
           F64.delete_expense 2 db1 = (F64.Returns false, db1).
Proof.
  split; [reflexivity|].
  apply (delete_expense_twice_int64 2 F64.demo_db F64.demo_table); [reflexivity|lia].
Defined.

(** ** The total of a month *)

(** X9. On a store that has the expenses table with amounts above zero, an
    [add_expense] that succeeds makes the total of a month the binary64 sum
    of the total before and the amount when SQLite reads that year-month
    from the date text, and leaves the total of the month as it was
    otherwise; a date text SQLite does not read as a date, which
    [add_expense] accepts when month or day lack the leading zero, counts in
    no month. *)
Theorem add_expense_month_total_binary64 (date_str : string) (amount : float)
    (category note : string) (month_str : string) (db : F64.store)
    (t : F64.expenses_table) (ymd : Z * Z * Z) :
  F64.expenses db = Some t →
  Forall (λ e, PrimFloat.ltb 0 (F64.exp_amount e) = true) (F64.rows t) →
  F64.strptime date_str = Some ymd →
  PrimFloat.ltb 0 amount = true →
  ∃ db' total total',
    F64.add_expense date_str amount category note db = (F64.Returns true, db') ∧
    F64.get_total_expenses_for_month month_str db = F64.Returns total ∧
    F64.get_total_expenses_for_month month_str db' = F64.Returns total' ∧
    (strftime_Ym date_str = Some month_str → total' = (total + amount)%float) ∧
    (strftime_Ym date_str ≠ Some month_str → total' = total).
Proof.
  intros Ht Hrows Hp Hpos.
  destruct (proj1 (positive_checks amount) Hpos) as [Hle Hnan].
  assert (Hold : Forall nonneg (F64.month_amounts month_str t))
    by by apply month_amounts_nonneg.
  eexists _, _, _. split_and!.
  - unfold F64.add_expense. by rewrite Hp, Hle, Ht, Hnan.
  - unfold F64.get_total_expenses_for_month. by rewrite Ht.
  - reflexivity.
  - intros Hm.
    assert (Hnew : F64.month_amounts month_str
                     (F64.insert_expense date_str amount category note t)
                   = (F64.month_amounts month_str t ++ [amount])%list).
    { unfold F64.month_amounts, F64.insert_expense. simpl.
      rewrite filter_app, fmap_app. by rewrite filter_cons_True by done. }
    rewrite Hnew, (f64_sql_sum_default _ Hold), <- fsum_snoc.
    apply f64_sql_sum_default.
    apply Forall_app. split; [exact Hold|].
    apply Forall_singleton. by apply positive_nonneg.
  - intros Hm. do 2 f_equal.
    unfold F64.month_amounts, F64.insert_expense. simpl.
    rewrite filter_app, fmap_app. rewrite filter_cons_False by done.
    by rewrite filter_nil, app_nil_r.
Qed.

Lemma add_expense_month_total_binary64_witness :
  F64.expenses F64.demo_db = Some F64.demo_table ∧
  Forall (λ e, PrimFloat.ltb 0 (F64.exp_amount e) = true) (F64.rows F64.demo_table) ∧
  F64.strptime "2024-1-5" = Some (2024, 1, 5) ∧
  PrimFloat.ltb 0 7 = true ∧
  ∃ db' total total',
    F64.add_expense "2024-1-5" 7 "Misc" "" F64.demo_db = (F64.Returns true, db') ∧
    F64.get_total_expenses_for_month "2024-01" F64.demo_db = F64.Returns total ∧
    F64.get_total_expenses_for_month "2024-01" db' = F64.Returns total' ∧
    (strftime_Ym "2024-1-5" = Some "2024-01" → total' = (total + 7)%float) ∧
    (strftime_Ym "2024-1-5" ≠ Some "2024-01" → total' = total).
Proof.
  assert (Hrows : Forall (λ e, PrimFloat.ltb 0 (F64.exp_amount e) = true)
                    (F64.rows F64.demo_table))
    by (repeat constructor).
  split_and!; [reflexivity | exact Hrows | reflexivity | reflexivity |].
  exact (add_expense_month_total_binary64 "2024-1-5" 7 "Misc" "" "2024-01"
           F64.demo_db F64.demo_table (2024, 1, 5) eq_refl Hrows eq_refl eq_refl).
Defined.

Lemma filter_filter_implied {A} (P Q : A → Prop) `{∀ x, Decision (P x)}
    `{∀ x, Decision (Q x)} (l : list A) :
  (∀ x, x ∈ l → P x → Q x) → filter P (filter Q l) = filter P l.
Proof.
  induction l as [|x l IH]; intros Himp; [done|].
  rewrite (filter_cons Q). destruct (decide (Q x)) as [HQ|HQ].
  - rewrite !filter_cons. destruct (decide (P x));
      rewrite IH by (intros y Hy; apply Himp; by right); done.
  - rewrite filter_cons. destruct (decide (P x)) as [HP|HP].
    + destruct HQ. apply Himp; [left|done].
    + apply IH. intros y Hy. apply Himp. by right.
Qed.

Lemma f64_rows_same_id (l : list F64.expense) (e e' : F64.expense) :
  NoDup (F64.exp_id <$> l) → e ∈ l → e' ∈ l → F64.exp_id e' = F64.exp_id e → e' = e.
Proof.
  intros Hnd Hin Hin' Hid.
  apply list_elem_of_lookup in Hin as [i Hi]. apply list_elem_of_lookup in Hin' as [j Hj].
  assert (i = j) as ->; [|congruence].
  apply (NoDup_lookup (F64.exp_id <$> l) i j (F64.exp_id e)); [done| |].
  - by rewrite list_lookup_fmap, Hi.
  - by rewrite list_lookup_fmap, Hj, <- Hid.
Qed.

(** X10. In every state the program can reach, deleting a stored expense
    whose id is in the signed 64-bit range returns [True], and the total of
    every month but the one SQLite reads from the date of that expense is as
    it was. *)
Theorem delete_expense_other_months (month_str : string) (db : F64.store)
    (t : F64.expenses_table) (e : F64.expense) :
  F64.reachable db →
  F64.expenses db = Some t →
  e ∈ F64.rows t →
  - 2 ^ 63 ≤ F64.exp_id e ≤ 2 ^ 63 - 1 →
  strftime_Ym (F64.exp_date e) ≠ Some month_str →
  ∃ db',
    F64.delete_expense (F64.exp_id e) db = (F64.Returns true, db') ∧
    F64.get_total_expenses_for_month month_str db'
    = F64.get_total_expenses_for_month month_str db.
Proof.
  intros (t0 & Ht0 & [[Hmax Hnd] _])%f64_reachable_valid Ht Hin Hid Hm.
  assert (t0 = t) as -> by congruence.
  assert (Hi : F64.int64 (F64.exp_id e) = true).
  { unfold F64.int64. apply andb_true_intro. split; apply Z.leb_le; lia. }
  eexists. split.
  - unfold F64.delete_expense. rewrite Ht, Hi. f_equal. f_equal.
    apply bool_decide_eq_true, f64_rowcount_pos. by exists e.
  - unfold F64.get_total_expenses_for_month. rewrite Ht. simpl. do 3 f_equal.
    unfold F64.month_amounts, F64.delete_rows. simpl. f_equal.
    apply filter_filter_implied. intros x Hx Hxm Hxid.
    apply Hm. by rewrite <- (f64_rows_same_id (F64.rows t) e x Hnd Hin Hx Hxid).
Qed.

Lemma delete_expense_other_months_witness :
  F64.reachable F64.demo_db ∧
  F64.expenses F64.demo_db = Some F64.demo_table ∧
  F64.Expense 2 "2024-01-31" 4 "Food" "tea" ∈ F64.rows F64.demo_table ∧
  ∃ db',
    F64.delete_expense 2 F64.demo_db = (F64.Returns true, db') ∧
    F64.get_total_expenses_for_month "2024-02" db'
    = F64.get_total_expenses_for_month "2024-02" F64.demo_db.
Proof.
  assert (Hin : F64.Expense 2 "2024-01-31" 4 "Food" "tea" ∈ F64.rows F64.demo_table).
  { simpl. apply list_elem_of_further, list_elem_of_here. }
  split_and!; [exact f64_demo_db_reachable | reflexivity | exact Hin |].
  apply (delete_expense_other_months "2024-02" F64.demo_db F64.demo_table
           (F64.Expense 2 "2024-01-31" 4 "Food" "tea") f64_demo_db_reachable eq_refl Hin).
  - simpl. lia.
  - discriminate.
Defined.
